(** * Habit Architect: study sprints, habits and focus sessions

    A shallow embedding of the request handlers of [app/routes/sprints.py],
    [app/routes/ui.py] and [app/routes/demo.py], of the tables declared in
    [app/models/__init__.py] and of the request schemas of
    [app/schemas/__init__.py].

    Conventions of the embedding.
    - Integers are [Z]; dates are day numbers and datetimes are seconds, both
      [Z]; text is [string]; a nullable column or an optional field is an
      [option].
    - A table is the list of its rows in insertion order.  The handlers are
      functions from a store to a store and a response; a handler that raises
      or redirects before [db.add] hands the store back as it received it.
    - Python's true division of two integers is kept as the exact rational
      [Q]; the rounding of that quotient to a binary float is not modelled.
    - The storage engine is SQLite as [app/db.py] configures it: a new row of
      a table with an INTEGER PRIMARY KEY gets the largest key of the table
      plus one, and foreign keys are not enforced (no pragma is issued). *)

From Stdlib Require Import String Ascii DecimalString ZArith QArith List Bool Lia.
From Stdlib Require Import Sorted Permutation.
Import ListNotations.

Local Open Scope string_scope.
Local Open Scope Z_scope.

(** ** Enumerations ([app/models/__init__.py]) *)

Inductive SprintStatus : Type :=
| SPRINT_PLANNED
| SPRINT_ACTIVE
| SPRINT_COMPLETED
| SPRINT_CANCELLED.

Inductive SessionStatus : Type :=
| PLANNED
| DONE
| SKIPPED.

Definition SessionStatus_eqb (a b : SessionStatus) : bool :=
  match a, b with
  | PLANNED, PLANNED | DONE, DONE | SKIPPED, SKIPPED => true
  | _, _ => false
  end.

(** ** Rows ([app/models/__init__.py]) *)

Record Sprint : Type := mkSprint {
  sprint_pk : Z;
  sprint_title : string;
  sprint_goal_text : string;
  sprint_start_date : Z;
  sprint_end_date : Z;
  sprint_status : SprintStatus;
  sprint_created_at : Z;
  sprint_updated_at : Z
}.

Record Habit : Type := mkHabit {
  habit_pk : Z;
  habit_sprint_id : Z;
  habit_name : string;
  habit_description : option string;
  habit_target_sessions_per_day : Z;
  habit_created_at : Z;
  habit_updated_at : Z
}.

Record Session : Type := mkSession {
  session_pk : Z;
  session_sprint_id : Z;
  session_habit_id : option Z;
  planned_start : Z;
  planned_duration_min : Z;
  actual_start : option Z;
  actual_duration_min : option Z;
  status : SessionStatus;
  notes : option string;
  difficulty : option Z;
  mood : option Z;
  session_created_at : Z
}.

(** ** The store: the three tables of [Base.metadata] *)

Record Store : Type := mkStore {
  sprints : list Sprint;
  habits : list Habit;
  sessions : list Session
}.

Definition empty_store : Store := mkStore [] [] [].

(** The key SQLite gives to a new row: one more than the largest key in the
    table, 1 in an empty table. *)
Definition next_id (keys : list Z) : Z :=
  1 + fold_right Z.max 0 keys.

(** [db.get(Model, pk)]: the row with that primary key, if any. *)
Definition db_get {A : Type} (pk : A -> Z) (rows : list A) (k : Z) : option A :=
  find (fun r => pk r =? k) rows.

(** An attribute assignment on a loaded row followed by [db.commit()]:
    the UPDATE rewrites the row with that primary key. *)
Definition db_update {A : Type} (pk : A -> Z) (f : A -> A) (rows : list A) (k : Z)
  : list A :=
  map (fun r => if pk r =? k then f r else r) rows.

(** ** SQL aggregates

    A column of a result set is a list of nullable values. *)

Definition non_null {A : Type} (col : list (option A)) : list A :=
  flat_map (fun v => match v with Some x => [x] | None => [] end) col.

Definition Zsum (l : list Z) : Z := fold_right Z.add 0 l.

(** [func.count(col)]: the number of non-null values. *)
Definition sql_count {A : Type} (col : list (option A)) : Z :=
  Z.of_nat (length (non_null col)).

(** [func.sum(col)]: NULL when there is no non-null value. *)
Definition sql_sum (col : list (option Z)) : option Z :=
  match non_null col with
  | [] => None
  | x :: l => Some (Zsum (x :: l))
  end.

(** [func.avg(col)]: NULL when there is no non-null value, otherwise the sum
    of the non-null values over their number. *)
Definition sql_avg (col : list (option Z)) : option Q :=
  match non_null col with
  | [] => None
  | x :: l => Some (Zsum (x :: l) # Pos.of_nat (length (x :: l)))%Q
  end.

(** [case((Session.status == st, v), else_=e)] evaluated on one row. *)
Definition sql_case {A : Type} (st : SessionStatus) (v e : A) (s : Session) : A :=
  if SessionStatus_eqb (status s) st then v else e.

(** [x or 0] on a nullable integer. *)
Definition or0 (x : option Z) : Z :=
  match x with
  | Some v => if v =? 0 then 0 else v
  | None => 0
  end.

(** [coalesce(x, d)] in a select list. *)
Definition sql_coalesce (x : option Z) (d : Z) : option Z :=
  match x with
  | Some v => Some v
  | None => Some d
  end.

(** Python's [a / b] on two integers, as the exact quotient. *)
Definition truediv (a b : Z) : Q := (inject_Z a / inject_Z b)%Q.

(** ** Request schemas ([app/schemas/__init__.py])

    A record holds a body as pydantic types it; the [valid_] function next
    to it is the conjunction of the [Field] constraints ([ge], [le],
    [max_length]) that pydantic checks before the handler runs. *)

Record SprintCreate : Type := mkSprintCreate {
  sc_title : string;
  sc_goal_text : string;
  sc_start_date : Z;
  sc_end_date : Z;
  sc_status : SprintStatus
}.

Definition valid_SprintCreate (p : SprintCreate) : bool :=
  Z.of_nat (String.length (sc_title p)) <=? 255.

Record SprintStatusUpdate : Type := mkSprintStatusUpdate {
  ssu_status : SprintStatus
}.

Record HabitCreate : Type := mkHabitCreate {
  hc_sprint_id : Z;
  hc_name : string;
  hc_description : option string;
  hc_target_sessions_per_day : Z
}.

Definition valid_HabitCreate (p : HabitCreate) : bool :=
  (1 <=? hc_sprint_id p)
  && (Z.of_nat (String.length (hc_name p)) <=? 255)
  && (1 <=? hc_target_sessions_per_day p).

(** The check of an optional bounded integer: absent, or within bounds. *)
Definition opt_between (lo hi : Z) (x : option Z) : bool :=
  match x with
  | Some v => (lo <=? v) && (v <=? hi)
  | None => true
  end.

Definition opt_ge (lo : Z) (x : option Z) : bool :=
  match x with
  | Some v => lo <=? v
  | None => true
  end.

Record SessionCreate : Type := mkSessionCreate {
  sn_sprint_id : Z;
  sn_habit_id : option Z;
  sn_planned_start : Z;
  sn_planned_duration_min : Z;
  sn_actual_start : option Z;
  sn_actual_duration_min : option Z;
  sn_status : SessionStatus;
  sn_notes : option string;
  sn_difficulty : option Z;
  sn_mood : option Z
}.

Definition valid_SessionCreate (p : SessionCreate) : bool :=
  (1 <=? sn_sprint_id p)
  && opt_ge 1 (sn_habit_id p)
  && (1 <=? sn_planned_duration_min p)
  && opt_ge 1 (sn_actual_duration_min p)
  && opt_between 1 5 (sn_difficulty p)
  && opt_between 1 5 (sn_mood p).

(** [SessionCompleteRequest] after validation. *)
Record SessionCompleteRequest : Type := mkSessionCompleteRequest {
  cr_actual_start : Z;
  cr_actual_duration_min : Z;
  cr_notes : option string;
  cr_difficulty : option Z;
  cr_mood : option Z
}.

(** The JSON body of a completion request as the caller sends it: any key
    may be left out. *)
Record CompleteBody : Type := mkCompleteBody {
  cb_actual_start : option Z;
  cb_actual_duration_min : option Z;
  cb_notes : option string;
  cb_difficulty : option Z;
  cb_mood : option Z
}.

(** Validation of a body against [SessionCompleteRequest]: [actual_start]
    and [actual_duration_min] are declared with [Field(...)], hence required;
    the other three default to [None]. *)
Definition parse_SessionCompleteRequest (b : CompleteBody)
  : option SessionCompleteRequest :=
  match cb_actual_start b, cb_actual_duration_min b with
  | Some start, Some dur =>
      if (1 <=? dur)
         && opt_between 1 5 (cb_difficulty b)
         && opt_between 1 5 (cb_mood b)
      then Some (mkSessionCompleteRequest start dur (cb_notes b)
                   (cb_difficulty b) (cb_mood b))
      else None
  | _, _ => None
  end.

Record SessionSkipRequest : Type := mkSessionSkipRequest {
  sk_notes : option string
}.

(** ** Errors ([app/services/errors.py]) *)

Inductive ErrorCode : Type :=
| SPRINT_NOT_FOUND
| HABIT_NOT_FOUND
| SESSION_NOT_FOUND
| SPRINT_ID_MISMATCH
| UNEXPECTED_ERROR.

Record HTTPException : Type := mkHTTPException {
  status_code : Z;
  code : ErrorCode;
  message : string;
  details : list (string * Z)
}.

Definition HTTP_400_BAD_REQUEST : Z := 400.
Definition HTTP_404_NOT_FOUND : Z := 404.

Definition build_error (c : ErrorCode) (sc : Z) (msg : string)
  (det : list (string * Z)) : HTTPException :=
  mkHTTPException sc c msg det.

(** The outcome of an API handler: its return value, the exception it
    raises, or the framework's own 422 answer when the path parameter or the
    body fails validation (the handler body does not run then). *)
Inductive Result (A : Type) : Type :=
| Ok (a : A)
| Raise (e : HTTPException)
| Unprocessable.

Arguments Ok {A} a.
Arguments Raise {A} e.
Arguments Unprocessable {A}.

(** The wall clock a request reads: [datetime.utcnow()] and [date.today()]. *)
Record Clock : Type := mkClock {
  utcnow : Z;
  today : Z
}.

Definition str_of_Z (z : Z) : string := NilZero.string_of_int (Z.to_int z).

(** ** Handlers of [app/routes/sprints.py] *)

Definition _not_found_error (c : ErrorCode) (entity : string) (entity_id : Z)
  : HTTPException :=
  build_error c HTTP_404_NOT_FOUND
    (entity ++ " " ++ str_of_Z entity_id ++ " not found")
    [("id", entity_id)].

Definition _get_sprint_or_404 (sprint_id : Z) (db : Store)
  : HTTPException + Sprint :=
  match db_get sprint_pk (sprints db) sprint_id with
  | Some sprint => inr sprint
  | None => inl (_not_found_error SPRINT_NOT_FOUND "Sprint" sprint_id)
  end.

Definition _get_session_or_404 (session_id : Z) (db : Store)
  : HTTPException + Session :=
  match db_get session_pk (sessions db) session_id with
  | Some session => inr session
  | None => inl (_not_found_error SESSION_NOT_FOUND "Session" session_id)
  end.


Definition create_sprint (clk : Clock) (payload : SprintCreate) (db : Store)
  : Store * Result Sprint :=
  if negb (valid_SprintCreate payload) then (db, Unprocessable) else
  let sprint :=
    mkSprint (next_id (map sprint_pk (sprints db)))
      (sc_title payload) (sc_goal_text payload)
      (sc_start_date payload) (sc_end_date payload) (sc_status payload)
      (utcnow clk) (utcnow clk) in
  (mkStore (sprints db ++ [sprint]) (habits db) (sessions db), Ok sprint).

(** *** [GET /sprints/overview] *)

(** The keys of a GROUP BY: each value of the grouping column once. *)
Definition group_keys (col : list Z) : list Z := nodup Z.eq_dec col.

(** [select(...).outerjoin(right, on)]: every left row with each right row
    that matches it, or with NULLs when none does. *)
Definition outerjoin {A B : Type} (on : A -> B -> bool) (left : list A)
  (right : list B) : list (A * option B) :=
  flat_map
    (fun a =>
       match filter (on a) right with
       | [] => [(a, None)]
       | b :: m => map (fun b' => (a, Some b')) (b :: m)
       end)
    left.

(** [order_by(key)]: a stable insertion sort on an integer key. *)
Fixpoint insert_by {A : Type} (key : A -> Z) (x : A) (l : list A) : list A :=
  match l with
  | [] => [x]
  | y :: l' => if key x <? key y then x :: y :: l' else y :: insert_by key x l'
  end.

Definition order_by {A : Type} (key : A -> Z) (l : list A) : list A :=
  fold_right (insert_by key) [] l.

Record HabitCountsRow : Type := mkHabitCountsRow {
  hcr_sprint_id : Z;
  hcr_habits_count : Z
}.

Definition habit_counts_subquery (db : Store) : list HabitCountsRow :=
  map
    (fun k =>
       let grp := filter (fun h => habit_sprint_id h =? k) (habits db) in
       mkHabitCountsRow k (sql_count (map (fun h => Some (habit_pk h)) grp)))
    (group_keys (map habit_sprint_id (habits db))).

Record SessionStatsRow : Type := mkSessionStatsRow {
  ssr_sprint_id : Z;
  ssr_sessions_count : Z;
  ssr_done_sessions : option Z;
  ssr_total_planned_minutes : option Z;
  ssr_total_actual_minutes : option Z
}.

Definition session_stats_subquery (db : Store) : list SessionStatsRow :=
  map
    (fun k =>
       let grp := filter (fun s => session_sprint_id s =? k) (sessions db) in
       mkSessionStatsRow k
         (sql_count (map (fun s => Some (session_pk s)) grp))
         (sql_sum (map (sql_case DONE (Some 1) (Some 0)) grp))
         (sql_sum (map (fun s => Some (planned_duration_min s)) grp))
         (sql_sum (map actual_duration_min grp)))
    (group_keys (map session_sprint_id (sessions db))).

(** A row of the overview statement. *)
Record OverviewRow : Type := mkOverviewRow {
  row_sprint_id : Z;
  row_title : string;
  row_status : SprintStatus;
  row_start_date : Z;
  row_end_date : Z;
  row_habits_count : option Z;
  row_sessions_count : option Z;
  row_done_sessions : option Z;
  row_total_planned_minutes : option Z;
  row_total_actual_minutes : option Z
}.

Definition overview_stmt (db : Store) : list OverviewRow :=
  let joined :=
    outerjoin (fun (ab : Sprint * option HabitCountsRow) ss =>
                 ssr_sprint_id ss =? sprint_pk (fst ab))
      (outerjoin (fun sp hc => hcr_sprint_id hc =? sprint_pk sp)
         (sprints db) (habit_counts_subquery db))
      (session_stats_subquery db) in
  order_by row_sprint_id
    (map
       (fun r =>
          let sp := fst (fst r) in
          let hc := snd (fst r) in
          let ss := snd r in
          mkOverviewRow (sprint_pk sp) (sprint_title sp) (sprint_status sp)
            (sprint_start_date sp) (sprint_end_date sp)
            (sql_coalesce (option_map hcr_habits_count hc) 0)
            (sql_coalesce (option_map ssr_sessions_count ss) 0)
            (sql_coalesce (match ss with Some x => ssr_done_sessions x | None => None end) 0)
            (sql_coalesce
               (match ss with Some x => ssr_total_planned_minutes x | None => None end) 0)
            (match ss with Some x => ssr_total_actual_minutes x | None => None end))
       joined).

(** [SprintOverview] of [app/schemas/__init__.py]; the [start_date] and
    [end_date] keywords the handler passes are not fields of the model. *)
Record SprintOverview : Type := mkSprintOverview {
  ov_id : Z;
  ov_title : string;
  ov_status : SprintStatus;
  ov_habits_count : Z;
  ov_sessions_count : Z;
  ov_done_sessions : Z;
  ov_completion_rate : option Q;
  ov_total_planned_minutes : Z;
  ov_total_actual_minutes : option Z
}.

Definition overview_item (row : OverviewRow) : SprintOverview :=
  let sessions_count := or0 (row_sessions_count row) in
  let done_sessions := or0 (row_done_sessions row) in
  let completion_rate :=
    if sessions_count =? 0 then None
    else Some (truediv done_sessions sessions_count) in
  mkSprintOverview (row_sprint_id row) (row_title row) (row_status row)
    (or0 (row_habits_count row)) sessions_count done_sessions completion_rate
    (or0 (row_total_planned_minutes row)) (row_total_actual_minutes row).

Definition list_sprint_overview (db : Store) : list SprintOverview :=
  map overview_item (overview_stmt db).

(** *** Single sprint, status update *)


Definition set_sprint_status (clk : Clock) (st : SprintStatus) (sp : Sprint)
  : Sprint :=
  mkSprint (sprint_pk sp) (sprint_title sp) (sprint_goal_text sp)
    (sprint_start_date sp) (sprint_end_date sp) st
    (sprint_created_at sp) (utcnow clk).

Definition update_sprint_status (clk : Clock) (sprint_id : Z)
  (payload : SprintStatusUpdate) (db : Store) : Store * Result Sprint :=
  if negb (0 <? sprint_id) then (db, Unprocessable) else
  match _get_sprint_or_404 sprint_id db with
  | inl e => (db, Raise e)
  | inr sprint =>
      let sprint' := set_sprint_status clk (ssu_status payload) sprint in
      (mkStore
         (db_update sprint_pk (set_sprint_status clk (ssu_status payload))
            (sprints db) sprint_id)
         (habits db) (sessions db),
       Ok sprint')
  end.

(** *** Habits *)

Definition create_habit (clk : Clock) (sprint_id : Z) (payload : HabitCreate)
  (db : Store) : Store * Result Habit :=
  if negb (0 <? sprint_id) || negb (valid_HabitCreate payload)
  then (db, Unprocessable) else
  match _get_sprint_or_404 sprint_id db with
  | inl e => (db, Raise e)
  | inr _ =>
      if negb (hc_sprint_id payload =? sprint_id) then
        (db, Raise (build_error SPRINT_ID_MISMATCH HTTP_400_BAD_REQUEST
                      "sprint_id mismatch"
                      [("path_sprint_id", sprint_id);
                       ("body_sprint_id", hc_sprint_id payload)]))
      else
        let habit :=
          mkHabit (next_id (map habit_pk (habits db)))
            (hc_sprint_id payload) (hc_name payload) (hc_description payload)
            (hc_target_sessions_per_day payload) (utcnow clk) (utcnow clk) in
        (mkStore (sprints db) (habits db ++ [habit]) (sessions db), Ok habit)
  end.


(** *** Sessions *)

Definition create_session (clk : Clock) (sprint_id : Z) (payload : SessionCreate)
  (db : Store) : Store * Result Session :=
  if negb (0 <? sprint_id) || negb (valid_SessionCreate payload)
  then (db, Unprocessable) else
  match _get_sprint_or_404 sprint_id db with
  | inl e => (db, Raise e)
  | inr _ =>
      if negb (sn_sprint_id payload =? sprint_id) then
        (db, Raise (build_error SPRINT_ID_MISMATCH HTTP_400_BAD_REQUEST
                      "sprint_id mismatch"
                      [("path_sprint_id", sprint_id);
                       ("body_sprint_id", sn_sprint_id payload)]))
      else
        let session :=
          mkSession (next_id (map session_pk (sessions db)))
            (sn_sprint_id payload) (sn_habit_id payload)
            (sn_planned_start payload) (sn_planned_duration_min payload)
            (sn_actual_start payload) (sn_actual_duration_min payload)
            (sn_status payload) (sn_notes payload) (sn_difficulty payload)
            (sn_mood payload) (utcnow clk) in
        (mkStore (sprints db) (habits db) (sessions db ++ [session]), Ok session)
  end.

(** The five assignments of [complete_session]. *)
Definition apply_complete (payload : SessionCompleteRequest) (s : Session)
  : Session :=
  mkSession (session_pk s) (session_sprint_id s) (session_habit_id s)
    (planned_start s) (planned_duration_min s)
    (Some (cr_actual_start payload)) (Some (cr_actual_duration_min payload))
    DONE (cr_notes payload) (cr_difficulty payload) (cr_mood payload)
    (session_created_at s).

Definition complete_session (session_id : Z) (body : CompleteBody) (db : Store)
  : Store * Result Session :=
  match parse_SessionCompleteRequest body with
  | None => (db, Unprocessable)
  | Some payload =>
      if negb (0 <? session_id) then (db, Unprocessable) else
      match _get_session_or_404 session_id db with
      | inl e => (db, Raise e)
      | inr session =>
          (mkStore (sprints db) (habits db)
             (db_update session_pk (apply_complete payload) (sessions db)
                session_id),
           Ok (apply_complete payload session))
      end
  end.

(** The assignments of [skip_session]: the status always, the notes only
    when the body is present and carries notes. *)
Definition apply_skip (payload : option SessionSkipRequest) (s : Session)
  : Session :=
  mkSession (session_pk s) (session_sprint_id s) (session_habit_id s)
    (planned_start s) (planned_duration_min s)
    (actual_start s) (actual_duration_min s)
    SKIPPED
    (match payload with
     | Some p => match sk_notes p with
                 | Some n => Some n
                 | None => notes s
                 end
     | None => notes s
     end)
    (difficulty s) (mood s) (session_created_at s).

Definition skip_session (session_id : Z) (payload : option SessionSkipRequest)
  (db : Store) : Store * Result Session :=
  if negb (0 <? session_id) then (db, Unprocessable) else
  match _get_session_or_404 session_id db with
  | inl e => (db, Raise e)
  | inr session =>
      (mkStore (sprints db) (habits db)
         (db_update session_pk (apply_skip payload) (sessions db) session_id),
       Ok (apply_skip payload session))
  end.

(** *** [GET /sprints/{sprint_id}/stats] *)

(** A Python number in a response: [done / total] is a float, the literal
    [0] of the other branch is an integer. *)
Inductive PyNum : Type :=
| PyInt (n : Z)
| PyFloat (q : Q).

Record StatsRow : Type := mkStatsRow {
  res_total_sessions : Z;
  res_done_sessions : option Z;
  res_skipped_sessions : option Z;
  res_total_planned_minutes : option Z;
  res_total_actual_minutes : option Z;
  res_avg_difficulty : option Q;
  res_avg_mood : option Q
}.

(** The aggregate statement of [sprint_stats]: no GROUP BY, so exactly one
    row over the sessions the WHERE clause keeps. *)
Definition stats_stmt (sprint_id : Z) (db : Store) : StatsRow :=
  let rows := filter (fun s => session_sprint_id s =? sprint_id) (sessions db) in
  mkStatsRow
    (sql_count (map (fun s => Some (session_pk s)) rows))
    (sql_sum (map (sql_case DONE (Some 1) (Some 0)) rows))
    (sql_sum (map (sql_case SKIPPED (Some 1) (Some 0)) rows))
    (sql_sum (map (fun s => Some (planned_duration_min s)) rows))
    (sql_sum (map actual_duration_min rows))
    (sql_avg (map (fun s => sql_case DONE (difficulty s) None s) rows))
    (sql_avg (map (fun s => sql_case DONE (mood s) None s) rows)).

Record SprintStats : Type := mkSprintStats {
  stats_sprint_id : Z;
  total_sessions : Z;
  done_sessions : Z;
  skipped_sessions : Z;
  completion_rate : PyNum;
  total_planned_minutes : Z;
  total_actual_minutes : Z;
  avg_difficulty : option Q;
  avg_mood : option Q
}.

Definition sprint_stats (sprint_id : Z) (db : Store) : Result SprintStats :=
  if negb (0 <? sprint_id) then Unprocessable else
  match _get_sprint_or_404 sprint_id db with
  | inl e => Raise e
  | inr _ =>
      let result := stats_stmt sprint_id db in
      let total_sessions := or0 (Some (res_total_sessions result)) in
      let done_sessions := or0 (res_done_sessions result) in
      let skipped_sessions := or0 (res_skipped_sessions result) in
      let total_planned_minutes := or0 (res_total_planned_minutes result) in
      let total_actual_minutes := or0 (res_total_actual_minutes result) in
      let avg_difficulty := res_avg_difficulty result in
      let avg_mood := res_avg_mood result in
      let completion_rate :=
        if total_sessions =? 0 then PyInt 0
        else PyFloat (truediv done_sessions total_sessions) in
      Ok (mkSprintStats sprint_id total_sessions done_sessions skipped_sessions
            completion_rate total_planned_minutes total_actual_minutes
            avg_difficulty avg_mood)
  end.

(** ** [POST /demo/seed] ([app/routes/demo.py]) *)

Definition seconds_per_day : Z := 86400.
Definition seconds_per_hour : Z := 3600.

(** The [SessionCreate] the loop builds for one [offset]. *)
Definition seed_session_payload (sprint_id habit_id base_start offset : Z)
  : SessionCreate :=
  mkSessionCreate sprint_id (Some habit_id)
    (base_start + offset * seconds_per_day)
    (if offset mod 2 =? 0 then 60 else 45)
    (if negb (offset mod 3 =? 0)
     then Some (base_start + offset * seconds_per_day
                + (offset mod 3) * seconds_per_hour)
     else None)
    (if negb (offset mod 3 =? 0) then Some 55 else None)
    (if negb (offset mod 3 =? 0) then DONE else SKIPPED)
    (Some (if negb (offset mod 3 =? 0) then "Felt productive" else "Needed rest"))
    (Some (if offset mod 2 =? 0 then 4 else 3))
    (Some (3 + offset mod 2)).

(** [db.add] of the model built from each payload in turn, each row taking
    the next key of its table. *)
Definition add_habit (clk : Clock) (acc : list Habit) (p : HabitCreate)
  : list Habit :=
  acc ++ [mkHabit (next_id (map habit_pk acc)) (hc_sprint_id p) (hc_name p)
            (hc_description p) (hc_target_sessions_per_day p)
            (utcnow clk) (utcnow clk)].

Definition add_session (clk : Clock) (acc : list Session) (p : SessionCreate)
  : list Session :=
  acc ++ [mkSession (next_id (map session_pk acc)) (sn_sprint_id p)
            (sn_habit_id p) (sn_planned_start p) (sn_planned_duration_min p)
            (sn_actual_start p) (sn_actual_duration_min p) (sn_status p)
            (sn_notes p) (sn_difficulty p) (sn_mood p) (utcnow clk)].

Record SeedSessionInfo : Type := mkSeedSessionInfo {
  info_id : Z;
  info_status : SessionStatus;
  info_planned_duration : Z
}.

Record SeedResult : Type := mkSeedResult {
  seed_sprint_id : Z;
  seed_habits : list string;
  seed_sessions : list SeedSessionInfo
}.

(** [db.query(Model).delete()]: the bulk delete of every row of a table. *)
Definition delete_all {A : Type} (rows : list A) : list A := [].

Definition seed_demo (clk : Clock) (db : Store) : Store * SeedResult :=
  let no_sessions := delete_all (sessions db) in
  let no_habits := delete_all (habits db) in
  let no_sprints := delete_all (sprints db) in
  let sprint :=
    mkSprint (next_id (map sprint_pk no_sprints))
      "Deep Work Week" "Solidify DS & Algorithms fundamentals"
      (today clk) (today clk + 6) SPRINT_ACTIVE (utcnow clk) (utcnow clk) in
  let habits_payload :=
    [mkHabitCreate (sprint_pk sprint) "Morning math drills"
       (Some "80 minutes focused problem solving") 2;
     mkHabitCreate (sprint_pk sprint) "Evening recap notes"
       (Some "Summaries of key takeaways") 1] in
  let habits := fold_left (add_habit clk) habits_payload no_habits in
  let habit0 := match habits with h :: _ => habit_pk h | [] => 0 end in
  let base_start :=
    sprint_start_date sprint * seconds_per_day + 9 * seconds_per_hour in
  let sessions_payload :=
    map (seed_session_payload (sprint_pk sprint) habit0 base_start)
      [0; 1; 2; 3; 4; 5] in
  let sessions := fold_left (add_session clk) sessions_payload no_sessions in
  (mkStore (no_sprints ++ [sprint]) habits sessions,
   mkSeedResult (sprint_pk sprint) (map habit_name habits)
     (map (fun s => mkSeedSessionInfo (session_pk s) (status s)
                      (planned_duration_min s))
        sessions)).

(** ** Handlers of [app/routes/ui.py]

    The form handlers answer with a redirect and a flash message.  Their
    [except] branches guard against a failing commit; the tables carry no
    constraint that these writes can violate, so the branch is not taken in
    this model. *)

Inductive Page : Type :=
| sprints_page
| sprint_detail_page (sprint_id : Z).

Record RedirectResponse : Type := mkRedirect {
  location : Page;
  flash : option string;
  is_error : bool
}.

Definition _default_redirect (url : Page) (msg : option string) (error : bool)
  : RedirectResponse :=
  mkRedirect url msg error.

(** [str.strip()] on ASCII text: tab to carriage return, the four
    separators 28 to 31, and the space are white. *)
Definition is_space (c : ascii) : bool :=
  let n := Z.of_nat (nat_of_ascii c) in
  ((9 <=? n) && (n <=? 13)) || ((28 <=? n) && (n <=? 32)).

Fixpoint lstrip (s : string) : string :=
  match s with
  | EmptyString => EmptyString
  | String c s' => if is_space c then lstrip s' else s
  end.

Fixpoint rstrip (s : string) : string :=
  match s with
  | EmptyString => EmptyString
  | String c s' =>
      match rstrip s' with
      | EmptyString => if is_space c then EmptyString else String c EmptyString
      | r => String c r
      end
  end.

Definition strip (s : string) : string := rstrip (lstrip s).

(** Truthiness of a string and of an optional string. *)
Definition str_truthy (s : string) : bool :=
  match s with
  | EmptyString => false
  | String _ _ => true
  end.

Definition strip_or_none (s : option string) : option string :=
  match s with
  | Some t => if str_truthy t then Some (strip t) else None
  | None => None
  end.

Definition create_sprint_ui (clk : Clock) (title goal_text : string)
  (start_date end_date : Z) (db : Store) : Store * RedirectResponse :=
  let sprint :=
    mkSprint (next_id (map sprint_pk (sprints db))) title goal_text
      start_date end_date SPRINT_PLANNED (utcnow clk) (utcnow clk) in
  (mkStore (sprints db ++ [sprint]) (habits db) (sessions db),
   mkRedirect sprints_page (Some "Sprint+created") false).

Definition create_habit_ui (clk : Clock) (sprint_id : Z) (name : string)
  (description : option string) (target_sessions_per_day : Z) (db : Store)
  : Store * RedirectResponse :=
  match db_get sprint_pk (sprints db) sprint_id with
  | None => (db, _default_redirect sprints_page (Some "Sprint+not+found") true)
  | Some _ =>
      let clean_name := strip name in
      if negb (str_truthy clean_name) || (target_sessions_per_day <=? 0) then
        (db, _default_redirect (sprint_detail_page sprint_id)
               (Some "Unable+to+create+habit") true)
      else
        let habit :=
          mkHabit (next_id (map habit_pk (habits db))) sprint_id clean_name
            (strip_or_none description) target_sessions_per_day
            (utcnow clk) (utcnow clk) in
        (mkStore (sprints db) (habits db ++ [habit]) (sessions db),
         _default_redirect (sprint_detail_page sprint_id)
           (Some "Habit+created") false)
  end.

Definition opt_Z_eqb (x : option Z) (k : Z) : bool :=
  match x with
  | Some v => v =? k
  | None => false
  end.

Definition delete_habit_ui (habit_id : Z) (db : Store)
  : Store * RedirectResponse :=
  match db_get habit_pk (habits db) habit_id with
  | None => (db, _default_redirect sprints_page (Some "Habit+not+found") true)
  | Some habit =>
      let sprint_id := habit_sprint_id habit in
      (mkStore (sprints db)
         (filter (fun h => negb (habit_pk h =? habit_id)) (habits db))
         (filter (fun s => negb (opt_Z_eqb (session_habit_id s) habit_id))
            (sessions db)),
       _default_redirect (sprint_detail_page sprint_id)
         (Some "Habit+deleted") false)
  end.

(** The [habit_id] form field of [plan_session_ui], as [int()] sees it. *)
Inductive HabitIdField : Type :=
| HabitIdEmpty            (* no field, or the empty text *)
| HabitIdNotInt           (* text on which [int()] raises ValueError *)
| HabitIdInt (n : Z).     (* text that [int()] reads as [n] *)

(** The outcome of the habit lookup of [plan_session_ui]: the habit to
    attach if any, or the rejection. *)
Definition resolve_habit (sprint_id : Z) (habit_id : HabitIdField) (db : Store)
  : option (option Habit) :=
  match habit_id with
  | HabitIdEmpty => Some None
  | HabitIdNotInt => Some None
  | HabitIdInt n =>
      if n =? 0 then Some None else
      match db_get habit_pk (habits db) n with
      | None => None
      | Some habit_obj =>
          if negb (habit_sprint_id habit_obj =? sprint_id) then None
          else Some (Some habit_obj)
      end
  end.

(** [planned_start_time] is the time of day in seconds when the field
    parses as an ISO time, [None] when it is absent or does not parse; both
    of the latter fall back to 09:00. *)
Definition plan_session_ui (clk : Clock) (sprint_id : Z)
  (habit_id : HabitIdField) (planned_start_date : Z)
  (planned_start_time : option Z) (planned_duration : Z)
  (notes_field : option string) (db : Store) : Store * RedirectResponse :=
  match db_get sprint_pk (sprints db) sprint_id with
  | None =>
      (db, _default_redirect (sprint_detail_page sprint_id)
             (Some "Unable+to+plan+session") true)
  | Some _ =>
      if planned_duration <=? 0 then
        (db, _default_redirect (sprint_detail_page sprint_id)
               (Some "Unable+to+plan+session") true)
      else
        match resolve_habit sprint_id habit_id db with
        | None =>
            (db, _default_redirect (sprint_detail_page sprint_id)
                   (Some "Invalid+habit+selected") true)
        | Some habit_obj =>
            let start_time :=
              match planned_start_time with
              | Some t => t
              | None => 9 * seconds_per_hour
              end in
            let planned := planned_start_date * seconds_per_day + start_time in
            let session :=
              mkSession (next_id (map session_pk (sessions db))) sprint_id
                (option_map habit_pk habit_obj) planned planned_duration
                None None PLANNED (strip_or_none notes_field) None None
                (utcnow clk) in
            (mkStore (sprints db) (habits db) (sessions db ++ [session]),
             _default_redirect (sprint_detail_page sprint_id)
               (Some "Session+planned") false)
        end
  end.

(** The assignments of [complete_session_ui]: the status always, each of the
    two actual fields only when the row has none. *)
Definition apply_complete_ui (clk : Clock) (s : Session) : Session :=
  mkSession (session_pk s) (session_sprint_id s) (session_habit_id s)
    (planned_start s) (planned_duration_min s)
    (match actual_start s with
     | None => Some (utcnow clk)
     | Some t => Some t
     end)
    (match actual_duration_min s with
     | None => Some (planned_duration_min s)
     | Some d => Some d
     end)
    DONE (notes s) (difficulty s) (mood s) (session_created_at s).

Definition complete_session_ui (clk : Clock) (session_id : Z) (db : Store)
  : Store * RedirectResponse :=
  match db_get session_pk (sessions db) session_id with
  | None =>
      (db, _default_redirect sprints_page (Some "Unable+to+update+session") true)
  | Some session =>
      (mkStore (sprints db) (habits db)
         (db_update session_pk (apply_complete_ui clk) (sessions db) session_id),
       _default_redirect (sprint_detail_page (session_sprint_id session))
         (Some "Session+updated") false)
  end.

Definition apply_skip_ui (s : Session) : Session :=
  mkSession (session_pk s) (session_sprint_id s) (session_habit_id s)
    (planned_start s) (planned_duration_min s)
    (actual_start s) (actual_duration_min s)
    SKIPPED (notes s) (difficulty s) (mood s) (session_created_at s).

Definition skip_session_ui (session_id : Z) (db : Store)
  : Store * RedirectResponse :=
  match db_get session_pk (sessions db) session_id with
  | None =>
      (db, _default_redirect sprints_page (Some "Unable+to+update+session") true)
  | Some session =>
      (mkStore (sprints db) (habits db)
         (db_update session_pk apply_skip_ui (sessions db) session_id),
       _default_redirect (sprint_detail_page (session_sprint_id session))
         (Some "Session+updated") false)
  end.

(** ** The application as a transition system

    One constructor per route that writes to the store ([app/main.py]
    mounts the four routers); the GET routes leave the store as it is. *)

Inductive Request : Type :=
| POST_sprints (payload : SprintCreate)
| PATCH_sprints_status (sprint_id : Z) (payload : SprintStatusUpdate)
| POST_sprints_habits (sprint_id : Z) (payload : HabitCreate)
| POST_sprints_sessions (sprint_id : Z) (payload : SessionCreate)
| PATCH_sessions_complete (session_id : Z) (body : CompleteBody)
| PATCH_sessions_skip (session_id : Z) (payload : option SessionSkipRequest)
| POST_demo_seed
| POST_ui_sprints (title goal_text : string) (start_date end_date : Z)
| POST_ui_sprints_habits (sprint_id : Z) (name : string)
    (description : option string) (target_sessions_per_day : Z)
| POST_ui_habits_delete (habit_id : Z)
| POST_ui_sessions_plan (sprint_id : Z) (habit_id : HabitIdField)
    (planned_start_date : Z) (planned_start_time : option Z)
    (planned_duration : Z) (notes_field : option string)
| POST_ui_sessions_complete (session_id : Z)
| POST_ui_sessions_skip (session_id : Z)
| GET_route.

(** The store after the application served [req] at time [clk]. *)
Definition handle (clk : Clock) (req : Request) (db : Store) : Store :=
  match req with
  | POST_sprints payload => fst (create_sprint clk payload db)
  | PATCH_sprints_status sprint_id payload =>
      fst (update_sprint_status clk sprint_id payload db)
  | POST_sprints_habits sprint_id payload =>
      fst (create_habit clk sprint_id payload db)
  | POST_sprints_sessions sprint_id payload =>
      fst (create_session clk sprint_id payload db)
  | PATCH_sessions_complete session_id body =>
      fst (complete_session session_id body db)
  | PATCH_sessions_skip session_id payload =>
      fst (skip_session session_id payload db)
  | POST_demo_seed => fst (seed_demo clk db)
  | POST_ui_sprints title goal_text start_date end_date =>
      fst (create_sprint_ui clk title goal_text start_date end_date db)
  | POST_ui_sprints_habits sprint_id name description target =>
      fst (create_habit_ui clk sprint_id name description target db)
  | POST_ui_habits_delete habit_id => fst (delete_habit_ui habit_id db)
  | POST_ui_sessions_plan sprint_id habit_id d t dur n =>
      fst (plan_session_ui clk sprint_id habit_id d t dur n db)
  | POST_ui_sessions_complete session_id =>
      fst (complete_session_ui clk session_id db)
  | POST_ui_sessions_skip session_id => fst (skip_session_ui session_id db)
  | GET_route => db
  end.

(** The stores the application can be in: the empty database that
    [init_db] creates, and whatever a served request leaves behind. *)
Inductive reachable : Store -> Prop :=
| reachable_init : reachable empty_store
| reachable_step : forall clk req db,
    reachable db -> reachable (handle clk req db).

(** ** Quantities the statements are phrased with *)

(** The sessions of one sprint. *)
Definition sessions_of (sprint_id : Z) (db : Store) : list Session :=
  filter (fun s => session_sprint_id s =? sprint_id) (sessions db).

Definition habits_of (sprint_id : Z) (db : Store) : list Habit :=
  filter (fun h => habit_sprint_id h =? sprint_id) (habits db).

Definition has_status (st : SessionStatus) (s : Session) : bool :=
  SessionStatus_eqb (status s) st.

(** How many sessions of a list are in a given status. *)
Definition count_status (st : SessionStatus) (l : list Session) : Z :=
  Z.of_nat (length (filter (has_status st) l)).



(** Every primary key is positive and occurs once in its table. *)
Record keys_ok (db : Store) : Prop := mk_keys_ok {
  sprint_keys_pos : Forall (fun k => 0 < k) (map sprint_pk (sprints db));
  habit_keys_pos : Forall (fun k => 0 < k) (map habit_pk (habits db));
  session_keys_pos : Forall (fun k => 0 < k) (map session_pk (sessions db));
  sprint_keys_nodup : NoDup (map sprint_pk (sprints db));
  habit_keys_nodup : NoDup (map habit_pk (habits db));
  session_keys_nodup : NoDup (map session_pk (sessions db))
}.

(** The statistics of a sprint that exists, field by field. *)
Definition stats_of (sprint_id : Z) (db : Store) : SprintStats :=
  let result := stats_stmt sprint_id db in
  mkSprintStats sprint_id
    (or0 (Some (res_total_sessions result)))
    (or0 (res_done_sessions result))
    (or0 (res_skipped_sessions result))
    (if or0 (Some (res_total_sessions result)) =? 0 then PyInt 0
     else PyFloat (truediv (or0 (res_done_sessions result))
                     (or0 (Some (res_total_sessions result)))))
    (or0 (res_total_planned_minutes result))
    (or0 (res_total_actual_minutes result))
    (res_avg_difficulty result)
    (res_avg_mood result).

(** A store for the examples: the demo data, seeded at day 20000, 08:00. *)
Definition demo_clock : Clock := mkClock (20000 * 86400 + 8 * 3600) 20000.

Definition demo_store : Store := handle demo_clock POST_demo_seed empty_store.

(** The overview entry of one sprint, computed from the sprint's own habits
    and sessions rather than through the grouped subqueries. *)
Definition overview_of (db : Store) (sp : Sprint) : SprintOverview :=
  let ss := sessions_of (sprint_pk sp) db in
  let n := Z.of_nat (length ss) in
  let d := count_status DONE ss in
  mkSprintOverview (sprint_pk sp) (sprint_title sp) (sprint_status sp)
    (Z.of_nat (length (habits_of (sprint_pk sp) db))) n d
    (if n =? 0 then None else Some (truediv d n))
    (Zsum (map planned_duration_min ss))
    (sql_sum (map actual_duration_min ss)).



(** The row of each grouped subquery for one sprint id, if the id occurs in
    the grouped table. *)
Definition habit_counts_of (db : Store) (k : Z) : option HabitCountsRow :=
  if in_dec Z.eq_dec k (map habit_sprint_id (habits db))
  then Some (mkHabitCountsRow k (Z.of_nat (length (habits_of k db))))
  else None.

Definition session_stats_of (db : Store) (k : Z) : option SessionStatsRow :=
  if in_dec Z.eq_dec k (map session_sprint_id (sessions db))
  then
    let grp := sessions_of k db in
    Some (mkSessionStatsRow k
            (sql_count (map (fun s => Some (session_pk s)) grp))
            (sql_sum (map (sql_case DONE (Some 1) (Some 0)) grp))
            (sql_sum (map (fun s => Some (planned_duration_min s)) grp))
            (sql_sum (map actual_duration_min grp)))
  else None.

(** The joined row of the overview statement for one sprint. *)
Definition overview_row_of (db : Store) (sp : Sprint) : OverviewRow :=
  let hc := habit_counts_of db (sprint_pk sp) in
  let ss := session_stats_of db (sprint_pk sp) in
  mkOverviewRow (sprint_pk sp) (sprint_title sp) (sprint_status sp)
    (sprint_start_date sp) (sprint_end_date sp)
    (sql_coalesce (option_map hcr_habits_count hc) 0)
    (sql_coalesce (option_map ssr_sessions_count ss) 0)
    (sql_coalesce (match ss with Some x => ssr_done_sessions x | None => None end) 0)
    (sql_coalesce
       (match ss with Some x => ssr_total_planned_minutes x | None => None end) 0)
    (match ss with Some x => ssr_total_actual_minutes x | None => None end).

(** A store with a single sprint and nothing else. *)
Definition focus_sprint : SprintCreate :=
  mkSprintCreate "Focus Sprint" "Practice algorithms" 20000 20004 SPRINT_PLANNED.

Definition lone_sprint_store : Store :=
  handle demo_clock (POST_sprints focus_sprint) empty_store.

(** A store with two sprints and one habit, which belongs to sprint 2. *)
Definition two_sprint_store : Store :=
  handle demo_clock
    (POST_sprints_habits 2 (mkHabitCreate 2 "PM" (Some "Habit PM") 1))
    (handle demo_clock (POST_sprints focus_sprint) lone_sprint_store).

(** A session body for sprint [sprint_id], attached to habit [habit_id]. *)
Definition plain_session (sprint_id : Z) (habit_id : option Z) : SessionCreate :=
  mkSessionCreate sprint_id habit_id (20000 * 86400 + 9 * 3600) 50
    None None PLANNED None None None.

(** A store whose only session was created through the API with its actual
    start and duration already filled in, and is still planned. *)
Definition prefilled_session : SessionCreate :=
  mkSessionCreate 1 None (20000 * 86400 + 9 * 3600) 50
    (Some (20000 * 86400 + 10 * 3600)) (Some 45) PLANNED None None None.

Definition prefilled_store : Store :=
  handle demo_clock (POST_sprints_sessions 1 prefilled_session) lone_sprint_store.

(** A later moment, at which the examples complete or skip a session. *)
Definition later_clock : Clock := mkClock (20001 * 86400) 20001.

(** The first session of the demo data: it was skipped. *)
Definition demo_session_1 : Session :=
  mkSession 1 1 (Some 1) (20000 * 86400 + 9 * 3600) 60 None None SKIPPED
    (Some "Needed rest") (Some 4) (Some 3) (utcnow demo_clock).

(** The store after a sequence of requests, served in order. *)
Fixpoint run (trace : list (Clock * Request)) (db : Store) : Store :=
  match trace with
  | [] => db
  | (clk, req) :: rest => run rest (handle clk req db)
  end.

(** A session with key [k] is stored. *)
Definition present (k : Z) (db : Store) : Prop :=
  In k (map session_pk (sessions db)).

(** Every stored session with key [k] is done or skipped. *)
Definition settled (k : Z) (db : Store) : Prop :=
  forall s, In s (sessions db) -> session_pk s = k ->
            status s = DONE \/ status s = SKIPPED.


(** The numeric fields of a session are within the bounds of the schemas. *)
Definition session_fields_ok (s : Session) : Prop :=
  1 <= planned_duration_min s
  /\ (forall d, actual_duration_min s = Some d -> 1 <= d)
  /\ (forall d, difficulty s = Some d -> 1 <= d <= 5)
  /\ (forall m, mood s = Some m -> 1 <= m <= 5).

Definition fields_ok (db : Store) : Prop :=
  (forall h, In h (habits db) -> 1 <= habit_target_sessions_per_day h)
  /\ (forall s, In s (sessions db) -> session_fields_ok s).

(** The session a request rewrites in place, for the four routes that
    complete or skip a session. *)
Definition session_target (req : Request) : option Z :=
  match req with
  | PATCH_sessions_complete session_id _ => Some session_id
  | PATCH_sessions_skip session_id _ => Some session_id
  | POST_ui_sessions_complete session_id => Some session_id
  | POST_ui_sessions_skip session_id => Some session_id
  | _ => None
  end.

(** Text made of ASCII characters only, the text on which [strip] and
    [lower] below are Python's. *)
Definition is_ascii_text (s : string) : bool :=
  forallb (fun c => Z.of_nat (nat_of_ascii c) <? 128) (list_ascii_of_string s).


(** [str.lower()] on ASCII text. *)
Definition lower_char (c : ascii) : ascii :=
  let n := nat_of_ascii c in
  if (65 <=? n)%nat && (n <=? 90)%nat then ascii_of_nat (n + 32) else c.

Fixpoint lower (s : string) : string :=
  match s with
  | EmptyString => EmptyString
  | String c s' => String (lower_char c) (lower s')
  end.

(** [_SESSION_FILTERS] of [app/routes/ui.py], as a lookup. *)
Definition _SESSION_FILTERS (key : string) : option SessionStatus :=
  if (key =? "planned")%string then Some PLANNED
  else if (key =? "done")%string then Some DONE
  else if (key =? "skipped")%string then Some SKIPPED
  else None.

Definition _normalize_filter (value : option string) : string :=
  match value with
  | None => "all"
  | Some v =>
      if negb (str_truthy v) then "all"
      else
        let v' := lower v in
        if (v' =? "all")%string || (v' =? "planned")%string
           || (v' =? "done")%string || (v' =? "skipped")%string
        then v'
        else "all"
  end.

(** The session list of [sprint_detail_page]: [None] is the 404 page of an
    unknown sprint; otherwise the sessions of the sprint by planned start,
    restricted to one status when the filter names one.  (The habit list and
    the rounded overview of the same page are not part of this definition.) *)
Definition sprint_detail_sessions (sprint_id : Z) (filter_param : option string)
  (db : Store) : option (list Session) :=
  let sessions_filter := _normalize_filter filter_param in
  match db_get sprint_pk (sprints db) sprint_id with
  | None => None
  | Some _ =>
      let rows :=
        filter (fun s => session_sprint_id s =? sprint_id) (sessions db) in
      let rows :=
        match _SESSION_FILTERS sessions_filter with
        | Some st => filter (fun s => SessionStatus_eqb (status s) st) rows
        | None => rows
        end in
      Some (order_by planned_start rows)
  end.

(** * Lemmas *)

Lemma SessionStatus_eqb_eq (a b : SessionStatus) :
  SessionStatus_eqb a b = true <-> a = b.
Proof. destruct a, b; simpl; split; intro H; congruence. Qed.

(** ** Aggregates *)

Lemma or0_Some (v : Z) : or0 (Some v) = v.
Proof. simpl. destruct (Z.eqb_spec v 0); congruence. Qed.

Lemma non_null_map_Some {A B : Type} (f : A -> B) (l : list A) :
  non_null (map (fun x => Some (f x)) l) = map f l.
Proof. induction l as [|x l IH]; simpl; [reflexivity | now rewrite IH]. Qed.

Lemma sql_count_pk {A : Type} (pk : A -> Z) (l : list A) :
  sql_count (map (fun x => Some (pk x)) l) = Z.of_nat (length l).
Proof. unfold sql_count. now rewrite non_null_map_Some, length_map. Qed.

Lemma sql_sum_all_Some {A : Type} (f : A -> Z) (l : list A) :
  sql_sum (map (fun x => Some (f x)) l)
  = match l with [] => None | _ :: _ => Some (Zsum (map f l)) end.
Proof.
  unfold sql_sum. rewrite non_null_map_Some. destruct l; reflexivity.
Qed.

(** Summing the 1/0 indicator of a status counts the rows in that status. *)
Lemma Zsum_indicator (st : SessionStatus) (l : list Session) :
  Zsum (map (fun s => if has_status st s then 1 else 0) l) = count_status st l.
Proof.
  unfold count_status.
  induction l as [|s l IH]; simpl; [reflexivity|].
  rewrite IH. destruct (has_status st s); simpl length; lia.
Qed.

Lemma sql_sum_case (st : SessionStatus) (l : list Session) :
  or0 (sql_sum (map (sql_case st (Some 1) (Some 0)) l)) = count_status st l.
Proof.
  assert (E : map (sql_case st (Some 1) (Some 0)) l
              = map (fun s => Some (if has_status st s then 1 else 0)) l).
  { apply map_ext. intro s. unfold sql_case, has_status.
    now destruct (SessionStatus_eqb (status s) st). }
  rewrite E, sql_sum_all_Some.
  destruct l as [|s l]; [reflexivity|].
  now rewrite or0_Some, Zsum_indicator.
Qed.

Lemma count_status_le (st : SessionStatus) (l : list Session) :
  0 <= count_status st l <= Z.of_nat (length l).
Proof.
  unfold count_status. pose proof (filter_length_le (has_status st) l). lia.
Qed.

(** The quotient the handlers compute is the fraction of its operands. *)
Lemma truediv_Qmake (a b : Z) :
  0 < b -> (truediv a b == a # Z.to_pos b)%Q.
Proof.
  intro Hb. unfold truediv, Qeq, Qdiv, Qinv, Qmult, inject_Z. simpl.
  destruct b as [|p|p]; try lia. simpl. lia.
Qed.

(** ** Primary keys *)

Lemma fold_max_ge (keys : list Z) :
  0 <= fold_right Z.max 0 keys /\
  forall k, In k keys -> k <= fold_right Z.max 0 keys.
Proof.
  induction keys as [|x keys [IH0 IH]]; simpl.
  - split; [lia | tauto].
  - split; [lia|]. intros k [-> | Hk]; [lia|]. specialize (IH k Hk). lia.
Qed.

Lemma next_id_pos (keys : list Z) : 0 < next_id keys.
Proof. unfold next_id. destruct (fold_max_ge keys). lia. Qed.

Lemma next_id_fresh (keys : list Z) : ~ In (next_id keys) keys.
Proof.
  unfold next_id. intro H. destruct (fold_max_ge keys) as [_ Hle].
  specialize (Hle _ H). lia.
Qed.

Lemma keys_snoc {A : Type} (pk : A -> Z) (rows : list A) (x : A) :
  pk x = next_id (map pk rows) ->
  Forall (fun k => 0 < k) (map pk rows) -> NoDup (map pk rows) ->
  Forall (fun k => 0 < k) (map pk (rows ++ [x])) /\ NoDup (map pk (rows ++ [x])).
Proof.
  intros E Hpos Hnd. rewrite map_app. simpl. split.
  - apply Forall_app. split; [assumption|].
    constructor; [|constructor]. rewrite E. apply next_id_pos.
  - apply NoDup_app; [assumption | constructor; [simpl; tauto | constructor] |].
    intros k Hk [<- | []]. rewrite E in Hk. exact (next_id_fresh _ Hk).
Qed.

Lemma map_pk_update {A : Type} (pk : A -> Z) (f : A -> A) (rows : list A) (k : Z) :
  (forall r, pk (f r) = pk r) ->
  map pk (db_update pk f rows k) = map pk rows.
Proof.
  intro Hf. unfold db_update. rewrite map_map. apply map_ext.
  intro r. destruct (pk r =? k); [apply Hf | reflexivity].
Qed.

Lemma keys_filter {A : Type} (pk : A -> Z) (keep : A -> bool) (rows : list A) :
  Forall (fun k => 0 < k) (map pk rows) -> NoDup (map pk rows) ->
  Forall (fun k => 0 < k) (map pk (filter keep rows))
  /\ NoDup (map pk (filter keep rows)).
Proof.
  induction rows as [|r rows IH]; simpl; intros Hpos Hnd.
  - split; constructor.
  - inversion Hpos as [|? ? Hr Hpos']; subst.
    inversion Hnd as [|? ? Hnin Hnd']; subst.
    destruct (IH Hpos' Hnd') as [IHp IHn].
    destruct (keep r); simpl; [|split; assumption].
    split; [constructor; assumption|].
    constructor; [|assumption].
    intro Hin. apply Hnin. apply in_map_iff in Hin.
    destruct Hin as [r' [E Hr']]. apply filter_In in Hr'.
    apply in_map_iff. exists r'. tauto.
Qed.

(** [db.get] finds a row exactly when its key is in the table. *)
Lemma db_get_Some {A : Type} (pk : A -> Z) (rows : list A) (k : Z) (r : A) :
  db_get pk rows k = Some r -> In r rows /\ pk r = k.
Proof.
  unfold db_get. intro H. apply find_some in H. destruct H as [Hin E].
  split; [assumption | now apply Z.eqb_eq].
Qed.

Lemma db_get_unique {A : Type} (pk : A -> Z) (rows : list A) (r : A) :
  NoDup (map pk rows) -> In r rows -> db_get pk rows (pk r) = Some r.
Proof.
  unfold db_get. induction rows as [|x rows IH]; simpl; intros Hnd Hin; [tauto|].
  inversion Hnd as [|? ? Hnin Hnd']; subst.
  destruct Hin as [-> | Hin].
  - now rewrite Z.eqb_refl.
  - destruct (Z.eqb_spec (pk x) (pk r)) as [E | _]; [|now apply IH].
    exfalso. apply Hnin. rewrite E. now apply in_map.
Qed.

(** After an update, [db.get] returns the rewritten row. *)
Lemma db_get_update {A : Type} (pk : A -> Z) (f : A -> A) (rows : list A)
  (k : Z) (r : A) :
  (forall x, pk (f x) = pk x) ->
  db_get pk rows k = Some r ->
  db_get pk (db_update pk f rows k) k = Some (f r).
Proof.
  intro Hf. unfold db_get, db_update.
  induction rows as [|x rows IH]; simpl; [discriminate|].
  destruct (Z.eqb_spec (pk x) k) as [E | N].
  - intro H. injection H as <-. now rewrite Hf, E, Z.eqb_refl.
  - intro H. destruct (Z.eqb_spec (pk x) k); [contradiction | now apply IH].
Qed.

(** ** Every handler keeps the keys positive and distinct *)

Lemma keys_ok_empty : keys_ok empty_store.
Proof. split; simpl; constructor. Qed.

Lemma keys_ok_seed (clk : Clock) (db : Store) : keys_ok (fst (seed_demo clk db)).
Proof.
  split; simpl; repeat constructor; simpl; try lia; intuition discriminate.
Qed.

Ltac keys_add H :=
  destruct H as [P1 P2 P3 N1 N2 N3];
  split; simpl; try assumption;
  first [ eapply keys_snoc; [reflexivity | eassumption | eassumption] ].

Ltac keys_update H :=
  destruct H as [P1 P2 P3 N1 N2 N3];
  split; simpl; try assumption;
  rewrite map_pk_update by reflexivity; assumption.

Lemma keys_ok_handle (clk : Clock) (req : Request) (db : Store) :
  keys_ok db -> keys_ok (handle clk req db).
Proof.
  intro H. destruct req; simpl.
  - unfold create_sprint. destruct (negb _); simpl; [assumption|]. keys_add H.
  - unfold update_sprint_status, _get_sprint_or_404.
    destruct (negb _); simpl; [assumption|].
    destruct (db_get _ _ _); simpl; [|assumption]. keys_update H.
  - unfold create_habit, _get_sprint_or_404.
    destruct (_ || _); simpl; [assumption|].
    destruct (db_get _ _ _); simpl; [|assumption].
    destruct (negb _); simpl; [assumption|]. keys_add H.
  - unfold create_session, _get_sprint_or_404.
    destruct (_ || _); simpl; [assumption|].
    destruct (db_get _ _ _); simpl; [|assumption].
    destruct (negb _); simpl; [assumption|]. keys_add H.
  - unfold complete_session, _get_session_or_404.
    destruct (parse_SessionCompleteRequest body); simpl; [|assumption].
    destruct (negb _); simpl; [assumption|].
    destruct (db_get _ _ _); simpl; [|assumption]. keys_update H.
  - unfold skip_session, _get_session_or_404.
    destruct (negb _); simpl; [assumption|].
    destruct (db_get _ _ _); simpl; [|assumption]. keys_update H.
  - apply keys_ok_seed.
  - unfold create_sprint_ui; simpl. keys_add H.
  - unfold create_habit_ui.
    destruct (db_get _ _ _); simpl; [|assumption].
    destruct (_ || _); simpl; [assumption|]. keys_add H.
  - unfold delete_habit_ui.
    destruct (db_get _ _ _); simpl; [|assumption].
    destruct H as [P1 P2 P3 N1 N2 N3].
    split; simpl; try assumption; now apply keys_filter.
  - unfold plan_session_ui.
    destruct (db_get _ _ _); simpl; [|assumption].
    destruct (planned_duration <=? 0); simpl; [assumption|].
    destruct (resolve_habit _ _ _); simpl; [|assumption]. keys_add H.
  - unfold complete_session_ui.
    destruct (db_get _ _ _); simpl; [|assumption]. keys_update H.
  - unfold skip_session_ui.
    destruct (db_get _ _ _); simpl; [|assumption]. keys_update H.
  - assumption.
Qed.

Lemma reachable_keys_ok (db : Store) : reachable db -> keys_ok db.
Proof.
  induction 1 as [|clk req db _ IH]; [apply keys_ok_empty|].
  now apply keys_ok_handle.
Qed.



(** ** Detailed statistics *)



Lemma stats_total (sprint_id : Z) (db : Store) :
  total_sessions (stats_of sprint_id db)
  = Z.of_nat (length (sessions_of sprint_id db)).
Proof.
  unfold stats_of, stats_stmt. cbn [total_sessions res_total_sessions].
  rewrite or0_Some. apply sql_count_pk.
Qed.

Lemma stats_done (sprint_id : Z) (db : Store) :
  done_sessions (stats_of sprint_id db)
  = count_status DONE (sessions_of sprint_id db).
Proof.
  unfold stats_of, stats_stmt. cbn [done_sessions res_done_sessions].
  apply sql_sum_case.
Qed.

Lemma stats_skipped (sprint_id : Z) (db : Store) :
  skipped_sessions (stats_of sprint_id db)
  = count_status SKIPPED (sessions_of sprint_id db).
Proof.
  unfold stats_of, stats_stmt. cbn [skipped_sessions res_skipped_sessions].
  apply sql_sum_case.
Qed.

Lemma stats_rate (sprint_id : Z) (db : Store) :
  completion_rate (stats_of sprint_id db)
  = if total_sessions (stats_of sprint_id db) =? 0 then PyInt 0
    else PyFloat (truediv (done_sessions (stats_of sprint_id db))
                    (total_sessions (stats_of sprint_id db))).
Proof. reflexivity. Qed.






Lemma demo_store_reachable : reachable demo_store.
Proof. unfold demo_store. apply reachable_step, reachable_init. Qed.

Lemma lone_sprint_store_reachable : reachable lone_sprint_store.
Proof. unfold lone_sprint_store. apply reachable_step, reachable_init. Qed.

Lemma two_sprint_store_reachable : reachable two_sprint_store.
Proof.
  unfold two_sprint_store. do 2 apply reachable_step.
  exact lone_sprint_store_reachable.
Qed.

Lemma prefilled_store_reachable : reachable prefilled_store.
Proof.
  unfold prefilled_store. apply reachable_step.
  exact lone_sprint_store_reachable.
Qed.

(** * Detailed statistics: completion rate and averages *)






(** * Overview *)

(** ** Grouping, joining and ordering *)

Lemma filter_map_comm {A B : Type} (p : B -> bool) (g : A -> B) (l : list A) :
  filter p (map g l) = map g (filter (fun x => p (g x)) l).
Proof.
  induction l as [|x l IH]; simpl; [reflexivity|].
  destruct (p (g x)); simpl; now rewrite IH.
Qed.

Lemma filter_key_absent {A : Type} (f : A -> Z) (k : Z) (l : list A) :
  ~ In k (map f l) -> filter (fun x => f x =? k) l = [].
Proof.
  induction l as [|x l IH]; simpl; intro H; [reflexivity|].
  destruct (Z.eqb_spec (f x) k) as [E | _]; [tauto|]. apply IH. tauto.
Qed.

Lemma filter_key_present {A : Type} (f : A -> Z) (k : Z) (l : list A) :
  In k (map f l) -> filter (fun x => f x =? k) l <> [].
Proof.
  induction l as [|x l IH]; simpl; intro H; [tauto|].
  destruct (Z.eqb_spec (f x) k) as [E | N]; [discriminate|].
  apply IH. tauto.
Qed.

Lemma filter_key_NoDup (k : Z) (l : list Z) :
  NoDup l -> In k l -> filter (fun x => x =? k) l = [k].
Proof.
  induction 1 as [|x l Hnin Hnd IH]; simpl; intro Hin; [tauto|].
  destruct (Z.eqb_spec x k) as [-> | N].
  - f_equal. rewrite <- (map_id l) in Hnin.
    exact (filter_key_absent (fun x => x) k l Hnin).
  - apply IH. destruct Hin; [contradiction | assumption].
Qed.

(** A GROUP BY has one row for a key that occurs and none for another. *)
Lemma group_keys_lookup (k : Z) (col : list Z) :
  filter (fun x => x =? k) (group_keys col)
  = if in_dec Z.eq_dec k col then [k] else [].
Proof.
  unfold group_keys. destruct (in_dec Z.eq_dec k col) as [Hin | Hnin].
  - apply filter_key_NoDup; [apply NoDup_nodup | now apply nodup_In].
  - apply (filter_key_absent (fun x => x)).
    intro Hin. rewrite map_id in Hin. apply Hnin. now apply nodup_In in Hin.
Qed.

(** An outer join against a table with at most one match per left row. *)
Lemma outerjoin_lookup {A B : Type} (on : A -> B -> bool) (look : A -> option B)
  (left : list A) (right : list B) :
  (forall a, filter (on a) right
             = match look a with Some b => [b] | None => [] end) ->
  outerjoin on left right = map (fun a => (a, look a)) left.
Proof.
  intro H. unfold outerjoin.
  induction left as [|a left IH]; [reflexivity|].
  cbn [flat_map]. rewrite IH, H.
  change (map (fun a0 => (a0, look a0)) (a :: left))
    with ((a, look a) :: map (fun a0 => (a0, look a0)) left).
  now destruct (look a).
Qed.

Lemma insert_by_map {A B : Type} (key : B -> Z) (f : A -> B) (x : A) (l : list A) :
  insert_by key (f x) (map f l) = map f (insert_by (fun a => key (f a)) x l).
Proof.
  induction l as [|y l IH]; simpl; [reflexivity|].
  destruct (key (f x) <? key (f y)); simpl; [reflexivity | now rewrite IH].
Qed.

Lemma order_by_map {A B : Type} (key : B -> Z) (f : A -> B) (l : list A) :
  order_by key (map f l) = map f (order_by (fun a => key (f a)) l).
Proof.
  unfold order_by. induction l as [|x l IH]; simpl; [reflexivity|].
  now rewrite IH, insert_by_map.
Qed.

Lemma insert_by_In {A : Type} (key : A -> Z) (x y : A) (l : list A) :
  In y (insert_by key x l) <-> y = x \/ In y l.
Proof.
  induction l as [|z l IH]; simpl; [intuition congruence|].
  destruct (key x <? key z); simpl; [intuition congruence|].
  rewrite IH. intuition congruence.
Qed.

Lemma order_by_In {A : Type} (key : A -> Z) (y : A) (l : list A) :
  In y (order_by key l) <-> In y l.
Proof.
  unfold order_by. induction l as [|x l IH]; simpl; [tauto|].
  rewrite insert_by_In, IH. intuition congruence.
Qed.

(** ** The two subqueries, looked up by sprint *)

Lemma habit_counts_lookup (db : Store) (k : Z) :
  filter (fun hc => hcr_sprint_id hc =? k) (habit_counts_subquery db)
  = match habit_counts_of db k with Some b => [b] | None => [] end.
Proof.
  unfold habit_counts_subquery, habit_counts_of.
  rewrite filter_map_comm. cbn [hcr_sprint_id].
  rewrite group_keys_lookup.
  destruct (in_dec Z.eq_dec k (map habit_sprint_id (habits db))); simpl;
    [|reflexivity].
  now rewrite sql_count_pk.
Qed.

Lemma session_stats_lookup (db : Store) (k : Z) :
  filter (fun ss => ssr_sprint_id ss =? k) (session_stats_subquery db)
  = match session_stats_of db k with Some b => [b] | None => [] end.
Proof.
  unfold session_stats_subquery, session_stats_of.
  rewrite filter_map_comm. cbn [ssr_sprint_id].
  rewrite group_keys_lookup.
  destruct (in_dec Z.eq_dec k (map session_sprint_id (sessions db)));
    reflexivity.
Qed.

(** ** The overview, sprint by sprint *)

Lemma overview_stmt_rows (db : Store) :
  overview_stmt db = map (overview_row_of db) (order_by sprint_pk (sprints db)).
Proof.
  unfold overview_stmt.
  rewrite (outerjoin_lookup _ (fun sp => habit_counts_of db (sprint_pk sp)))
    by (intro sp; apply habit_counts_lookup).
  rewrite (outerjoin_lookup _
             (fun ab : Sprint * option HabitCountsRow =>
                session_stats_of db (sprint_pk (fst ab))))
    by (intro ab; apply session_stats_lookup).
  rewrite !map_map. cbn [fst snd].
  rewrite (order_by_map row_sprint_id). reflexivity.
Qed.

Lemma sessions_of_absent (db : Store) (k : Z) :
  ~ In k (map session_sprint_id (sessions db)) -> sessions_of k db = [].
Proof. apply filter_key_absent. Qed.

Lemma habits_of_absent (db : Store) (k : Z) :
  ~ In k (map habit_sprint_id (habits db)) -> habits_of k db = [].
Proof. apply filter_key_absent. Qed.

Lemma overview_item_row (db : Store) (sp : Sprint) :
  overview_item (overview_row_of db sp) = overview_of db sp.
Proof.
  unfold overview_item, overview_row_of, overview_of.
  cbn [row_sprint_id row_title row_status row_habits_count row_sessions_count
       row_done_sessions row_total_planned_minutes row_total_actual_minutes].
  assert (Hh : or0 (sql_coalesce
                      (option_map hcr_habits_count
                         (habit_counts_of db (sprint_pk sp))) 0)
               = Z.of_nat (length (habits_of (sprint_pk sp) db))).
  { unfold habit_counts_of.
    destruct (in_dec Z.eq_dec _ _) as [Hin | Hnin]; cbn.
    - apply or0_Some.
    - now rewrite (habits_of_absent _ _ Hnin). }
  rewrite Hh. clear Hh.
  unfold session_stats_of.
  destruct (in_dec Z.eq_dec _ _) as [Hin | Hnin].
  - cbn [option_map ssr_sessions_count ssr_done_sessions
         ssr_total_planned_minutes ssr_total_actual_minutes sql_coalesce].
    rewrite sql_count_pk, or0_Some.
    assert (Hd : or0 (sql_coalesce
                        (sql_sum (map (sql_case DONE (Some 1) (Some 0))
                                    (sessions_of (sprint_pk sp) db))) 0)
                 = count_status DONE (sessions_of (sprint_pk sp) db)).
    { rewrite <- sql_sum_case.
      destruct (sql_sum _); [reflexivity | reflexivity]. }
    rewrite Hd. clear Hd.
    assert (Hp : or0 (sql_coalesce
                        (sql_sum (map (fun s => Some (planned_duration_min s))
                                    (sessions_of (sprint_pk sp) db))) 0)
                 = Zsum (map planned_duration_min (sessions_of (sprint_pk sp) db))).
    { rewrite sql_sum_all_Some.
      destruct (sessions_of (sprint_pk sp) db); [reflexivity|].
      cbn [sql_coalesce]. apply or0_Some. }
    rewrite Hp. reflexivity.
  - rewrite (sessions_of_absent _ _ Hnin). reflexivity.
Qed.

(** The overview lists the sprints in key order, each with the figures of
    its own habits and sessions. *)
Lemma list_sprint_overview_eq (db : Store) :
  list_sprint_overview db
  = map (overview_of db) (order_by sprint_pk (sprints db)).
Proof.
  unfold list_sprint_overview. rewrite overview_stmt_rows, map_map.
  apply map_ext. intro sp. apply overview_item_row.
Qed.

Lemma list_sprint_overview_In (db : Store) (item : SprintOverview) :
  In item (list_sprint_overview db)
  <-> exists sp, In sp (sprints db) /\ item = overview_of db sp.
Proof.
  rewrite list_sprint_overview_eq, in_map_iff. split.
  - intros [sp [E Hin]]. exists sp. rewrite order_by_In in Hin. now split.
  - intros [sp [Hin E]]. exists sp. rewrite order_by_In. now split.
Qed.










(** * Creation requests *)






(** C6, the defect.  In a store the application reaches, habit 1 belongs to
    sprint 2.  The API route creates a session of sprint 1 attached to that
    habit and stores it; the form route refuses the same habit for sprint 1
    and stores nothing. *)
Theorem create_session_foreign_habit_persisted :
  reachable two_sprint_store
  /\ (exists h,
     db_get habit_pk (habits two_sprint_store) 1 = Some h
     /\ habit_sprint_id h = 2)
  /\ (exists s,
        snd (create_session demo_clock 1 (plain_session 1 (Some 1))
               two_sprint_store) = Ok s
        /\ In s (sessions (fst (create_session demo_clock 1
                                  (plain_session 1 (Some 1)) two_sprint_store)))
        /\ session_sprint_id s = 1
        /\ session_habit_id s = Some 1)
  /\ plan_session_ui demo_clock 1 (HabitIdInt 1) 20000 None 50 None
       two_sprint_store
     = (two_sprint_store,
        mkRedirect (sprint_detail_page 1) (Some "Invalid+habit+selected") true).
Proof.
  split; [exact two_sprint_store_reachable|].
  split; [eexists; split; reflexivity|].
  split; [|reflexivity].
  eexists. split; [reflexivity|].
  split; [simpl; left; reflexivity|]. split; reflexivity.
Qed.

(** * Session life cycle *)

Lemma In_db_update {A : Type} (pk : A -> Z) (f : A -> A) (rows : list A)
  (k : Z) (r' : A) :
  In r' (db_update pk f rows k) ->
  In r' rows \/ exists r, In r rows /\ r' = f r.
Proof.
  unfold db_update. rewrite in_map_iff. intros [r [E Hin]].
  destruct (pk r =? k); subst; [right; now exists r | now left].
Qed.

Lemma In_snoc {A : Type} (rows : list A) (x y : A) :
  In y (rows ++ [x]) -> In y rows \/ y = x.
Proof. rewrite in_app_iff. simpl. intuition congruence. Qed.

Lemma seed_sessions_not_planned (clk : Clock) (db : Store) (s : Session) :
  In s (sessions (fst (seed_demo clk db))) -> status s <> PLANNED.
Proof.
  simpl. intros H.
  repeat (destruct H as [<- | H]; [discriminate|]). destruct H.
Qed.

(** Where a session of the store after a request comes from: it is not
    planned, or it was in the store before, or its key is new. *)
Lemma handle_session_origin (clk : Clock) (req : Request) (db : Store)
  (s' : Session) :
  In s' (sessions (handle clk req db)) ->
  status s' <> PLANNED
  \/ In s' (sessions db)
  \/ ~ In (session_pk s') (map session_pk (sessions db)).
Proof.
  destruct req; simpl.
  - unfold create_sprint. destruct (negb _); simpl; tauto.
  - unfold update_sprint_status, _get_sprint_or_404.
    destruct (negb _); simpl; [tauto|]. destruct (db_get _ _ _); simpl; tauto.
  - unfold create_habit, _get_sprint_or_404.
    destruct (_ || _); simpl; [tauto|].
    destruct (db_get _ _ _); simpl; [|tauto]. destruct (negb _); simpl; tauto.
  - unfold create_session, _get_sprint_or_404.
    destruct (_ || _); simpl; [tauto|].
    destruct (db_get _ _ _); simpl; [|tauto].
    destruct (negb _); simpl; [tauto|].
    intro H. apply In_snoc in H. destruct H as [H | ->]; [tauto|].
    right. right. simpl. apply next_id_fresh.
  - unfold complete_session, _get_session_or_404.
    destruct (parse_SessionCompleteRequest body); simpl; [|tauto].
    destruct (negb _); simpl; [tauto|].
    destruct (db_get _ _ _); simpl; [|tauto].
    intro H. apply In_db_update in H. destruct H as [H | [r [_ ->]]]; [tauto|].
    left. discriminate.
  - unfold skip_session, _get_session_or_404.
    destruct (negb _); simpl; [tauto|].
    destruct (db_get _ _ _); simpl; [|tauto].
    intro H. apply In_db_update in H. destruct H as [H | [r [_ ->]]]; [tauto|].
    left. discriminate.
  - intro H. left. exact (seed_sessions_not_planned clk db s' H).
  - tauto.
  - unfold create_habit_ui. destruct (db_get _ _ _); simpl; [|tauto].
    destruct (_ || _); simpl; tauto.
  - unfold delete_habit_ui. destruct (db_get _ _ _); simpl; [|tauto].
    intro H. apply filter_In in H. tauto.
  - unfold plan_session_ui. destruct (db_get _ _ _); simpl; [|tauto].
    destruct (planned_duration <=? 0); simpl; [tauto|].
    destruct (resolve_habit _ _ _); simpl; [|tauto].
    intro H. apply In_snoc in H. destruct H as [H | ->]; [tauto|].
    right. right. simpl. apply next_id_fresh.
  - unfold complete_session_ui. destruct (db_get _ _ _); simpl; [|tauto].
    intro H. apply In_db_update in H. destruct H as [H | [r [_ ->]]]; [tauto|].
    left. discriminate.
  - unfold skip_session_ui. destruct (db_get _ _ _); simpl; [|tauto].
    intro H. apply In_db_update in H. destruct H as [H | [r [_ ->]]]; [tauto|].
    left. discriminate.
  - tauto.
Qed.

Lemma same_key_same_row {A : Type} (pk : A -> Z) (rows : list A) (a b : A) :
  NoDup (map pk rows) -> In a rows -> In b rows -> pk a = pk b -> a = b.
Proof.
  intros Hnd Ha Hb E.
  pose proof (db_get_unique pk rows a Hnd Ha) as Ga.
  pose proof (db_get_unique pk rows b Hnd Hb) as Gb.
  rewrite E in Ga. congruence.
Qed.

(** One request never turns a done or skipped session into a planned one. *)
Lemma handle_keeps_terminal (clk : Clock) (req : Request) (db : Store)
  (s s' : Session) :
  keys_ok db ->
  In s (sessions db) -> status s <> PLANNED ->
  In s' (sessions (handle clk req db)) -> session_pk s' = session_pk s ->
  status s' <> PLANNED.
Proof.
  intros K Hs Hst Hs' Hk.
  destruct (handle_session_origin clk req db s' Hs') as [H | [H | H]].
  - exact H.
  - rewrite (same_key_same_row session_pk (sessions db) s' s
               (session_keys_nodup _ K) H Hs Hk).
    exact Hst.
  - exfalso. apply H. rewrite Hk. now apply in_map.
Qed.

Lemma step_keeps_done_or_skipped (clk : Clock) (req : Request)
  (db : Store) (s s' : Session) :
  reachable db ->
  In s (sessions db) ->
  status s = DONE \/ status s = SKIPPED ->
  In s' (sessions (handle clk req db)) ->
  session_pk s' = session_pk s ->
  status s' = DONE \/ status s' = SKIPPED.
Proof.
  intros R Hs Hst Hs' Hk.
  assert (Hnp : status s' <> PLANNED).
  { apply (handle_keeps_terminal clk req db s s');
      [now apply reachable_keys_ok | assumption | | assumption | assumption].
    destruct Hst as [E | E]; rewrite E; discriminate. }
  destruct (status s'); [contradiction | now left | now right].
Qed.

(** C7.  In every store the application can reach, for every session that
    is done or skipped and every request to any route, the session with that
    key in the store after the request, if there is one, is not planned. *)
Theorem terminal_status_never_planned (clk : Clock) (req : Request) (db : Store)
  (s s' : Session) :
  reachable db ->
  In s (sessions db) ->
  status s = DONE \/ status s = SKIPPED ->
  In s' (sessions (handle clk req db)) ->
  session_pk s' = session_pk s ->
  status s' = DONE \/ status s' = SKIPPED.
Proof. apply step_keeps_done_or_skipped. Qed.

(** C7 on the demo data: session 1 was skipped; completing it through the
    form leaves it done, not planned. *)
Lemma terminal_status_never_planned_witness :
  In (apply_complete_ui later_clock demo_session_1)
    (sessions (handle later_clock (POST_ui_sessions_complete 1) demo_store))
  /\ (status (apply_complete_ui later_clock demo_session_1) = DONE
      \/ status (apply_complete_ui later_clock demo_session_1) = SKIPPED).
Proof.
  assert (H : In (apply_complete_ui later_clock demo_session_1)
                (sessions (handle later_clock (POST_ui_sessions_complete 1)
                             demo_store))).
  { simpl. left. reflexivity. }
  split; [exact H|].
  apply (terminal_status_never_planned later_clock (POST_ui_sessions_complete 1)
           demo_store demo_session_1 (apply_complete_ui later_clock demo_session_1)
           demo_store_reachable).
  - simpl. left. reflexivity.
  - right. reflexivity.
  - exact H.
  - reflexivity.
Defined.

Lemma run_reachable (trace : list (Clock * Request)) (db : Store) :
  reachable db -> reachable (run trace db).
Proof.
  revert db. induction trace as [|[clk req] rest IH]; simpl; intros db R;
    [assumption|].
  apply IH. now apply reachable_step.
Qed.

(** Along any sequence of requests, a done or skipped session stays done or
    skipped for as long as a session with its key is stored. *)
Lemma settled_along_trace (trace : list (Clock * Request)) (db : Store) (k : Z) :
  reachable db -> present k db -> settled k db ->
  (forall n, present k (run (firstn n trace) db)) ->
  settled k (run trace db).
Proof.
  revert db. induction trace as [|[clk req] rest IH]; simpl; intros db R P St Hp;
    [assumption|].
  apply IH.
  - now apply reachable_step.
  - exact (Hp 1%nat).
  - intros s' Hs' Hk. unfold present in P. apply in_map_iff in P.
    destruct P as [s [Es Hs]].
    apply (step_keeps_done_or_skipped clk req db s s'); try assumption.
    + now apply St.
    + congruence.
  - intro n. exact (Hp (S n)).
Qed.

(** * The demo seed *)

(** C8.  Seeding the empty store leaves one sprint, two habits of that
    sprint and six sessions of that sprint, the session at index [i] done
    exactly when [i mod 3] is not zero (and skipped otherwise); the detailed
    statistics of the seeded sprint are then 6 sessions, 4 done, 2 skipped
    and a completion rate of 4/6. *)
Theorem seed_demo_statistics (clk : Clock) :
  let db := fst (seed_demo clk empty_store) in
  let res := snd (seed_demo clk empty_store) in
  length (sprints db) = 1%nat
  /\ length (habits db) = 2%nat
  /\ length (sessions db) = 6%nat
  /\ Forall (fun h => habit_sprint_id h = seed_sprint_id res) (habits db)
  /\ Forall (fun s => session_sprint_id s = seed_sprint_id res) (sessions db)
  /\ (forall i s,
        nth_error (sessions db) i = Some s ->
        (status s = DONE <-> Z.of_nat i mod 3 <> 0)
        /\ (status s = SKIPPED <-> Z.of_nat i mod 3 = 0))
  /\ exists r,
       sprint_stats (seed_sprint_id res) db = Ok r
       /\ total_sessions r = 6
       /\ done_sessions r = 4
       /\ skipped_sessions r = 2
       /\ exists q, completion_rate r = PyFloat q /\ (q == 4 # 6)%Q.
Proof.
  destruct clk as [now day]. cbv zeta.
  split; [reflexivity|]. split; [reflexivity|]. split; [reflexivity|].
  split; [repeat constructor|]. split; [repeat constructor|].
  split.
  - intros i s H.
    do 6 (destruct i as [|i];
          [injection H as <-; split; split; intro E; vm_compute in E |- *;
           first [ reflexivity | discriminate E
                 | exfalso; apply E; reflexivity
                 | intro E'; discriminate E' ] |]).
    simpl in H. destruct i; discriminate H.
  - eexists. split; [reflexivity|].
    split; [reflexivity|]. split; [reflexivity|]. split; [reflexivity|].
    eexists. split; [reflexivity|]. reflexivity.
Qed.

(** * Completing and skipping a session *)

Lemma parse_SessionCompleteRequest_fields (body : CompleteBody)
  (payload : SessionCompleteRequest) :
  parse_SessionCompleteRequest body = Some payload ->
  cb_actual_start body = Some (cr_actual_start payload)
  /\ cb_actual_duration_min body = Some (cr_actual_duration_min payload)
  /\ cr_notes payload = cb_notes body
  /\ cr_difficulty payload = cb_difficulty body
  /\ cr_mood payload = cb_mood body.
Proof.
  unfold parse_SessionCompleteRequest.
  destruct (cb_actual_start body); [|discriminate].
  destruct (cb_actual_duration_min body); [|discriminate].
  destruct (_ && _); [|discriminate].
  intro H. injection H as <-. repeat split.
Qed.

Lemma parse_SessionCompleteRequest_required (body : CompleteBody) :
  cb_actual_start body = None \/ cb_actual_duration_min body = None ->
  parse_SessionCompleteRequest body = None.
Proof.
  unfold parse_SessionCompleteRequest. intros [E | E]; rewrite E;
    [reflexivity|]. now destruct (cb_actual_start body).
Qed.

(** C9, as amended.  Completing an existing session through the form sets
    its status to done; its actual start becomes the current time when the
    session has none stored and is kept otherwise; its actual duration
    becomes the planned duration when the session has none stored and is kept
    otherwise.  The API route refuses a body that leaves out the actual start
    or the actual duration, and the store stays as it was. *)
Theorem complete_session_ui_defaults (clk : Clock) (session_id : Z) (db : Store)
  (s : Session) :
  db_get session_pk (sessions db) session_id = Some s ->
  (exists s',
     db_get session_pk (sessions (fst (complete_session_ui clk session_id db)))
       session_id = Some s'
     /\ status s' = DONE
     /\ (actual_start s = None -> actual_start s' = Some (utcnow clk))
     /\ (forall t, actual_start s = Some t -> actual_start s' = Some t)
     /\ (actual_duration_min s = None ->
         actual_duration_min s' = Some (planned_duration_min s))
     /\ (forall d, actual_duration_min s = Some d ->
                   actual_duration_min s' = Some d))
  /\ (forall body,
        cb_actual_start body = None \/ cb_actual_duration_min body = None ->
        complete_session session_id body db = (db, Unprocessable)).
Proof.
  intro G. split.
  - exists (apply_complete_ui clk s). split.
    + unfold complete_session_ui. rewrite G. cbn [fst sessions].
      now apply db_get_update.
    + unfold apply_complete_ui. cbn [status actual_start actual_duration_min].
      split; [reflexivity|].
      repeat split; intros; match goal with
                            | H : _ = _ |- _ => rewrite H; reflexivity
                            end.
  - intros body Hb. unfold complete_session.
    now rewrite (parse_SessionCompleteRequest_required body Hb).
Qed.

(** The amended C9 on the demo data: session 1 was skipped and has no
    actual start or duration; completed through the form at a later time it
    is done, started then, and lasted its planned 60 minutes. *)
Lemma complete_session_ui_defaults_witness :
  exists s',
    db_get session_pk
      (sessions (fst (complete_session_ui later_clock 1 demo_store))) 1
    = Some s'
    /\ status s' = DONE
    /\ actual_start s' = Some (utcnow later_clock)
    /\ actual_duration_min s' = Some 60.
Proof.
  destruct (complete_session_ui_defaults later_clock 1 demo_store demo_session_1
              eq_refl)
    as [[s' [G [Hst [Hstart [_ [Hdur _]]]]]] _].
  exists s'. split; [exact G|]. split; [exact Hst|].
  split; [exact (Hstart eq_refl) | exact (Hdur eq_refl)].
Defined.

(** C9 as written fails for a session that already has the two actual
    fields (here one created through the API): the form sends neither, and yet the completed session keeps the
    stored start and the stored 45 minutes instead of the current time and
    the planned 50 minutes. *)
Lemma complete_session_ui_keeps_stored_actuals :
  exists s s',
    reachable prefilled_store
    /\ db_get session_pk (sessions prefilled_store) 1 = Some s
    /\ db_get session_pk
         (sessions (fst (complete_session_ui later_clock 1 prefilled_store))) 1
       = Some s'
    /\ status s' = DONE
    /\ actual_start s' <> Some (utcnow later_clock)
    /\ actual_duration_min s' <> Some (planned_duration_min s).
Proof.
  eexists. eexists. split; [exact prefilled_store_reachable|].
  split; [reflexivity|]. split; [reflexivity|].
  split; [reflexivity|]. split; discriminate.
Qed.



(** * Further properties of the overview and of the statistics *)

Lemma insert_by_Sorted {A : Type} (key : A -> Z) (x : A) (l : list A) :
  Sorted (fun a b => key a <= key b) l ->
  Sorted (fun a b => key a <= key b) (insert_by key x l).
Proof.
  induction 1 as [|y l Hs IH Hhd]; simpl.
  - constructor; constructor.
  - destruct (Z.ltb_spec (key x) (key y)) as [Hlt | Hge].
    + constructor; [constructor; assumption|]. constructor. lia.
    + constructor; [assumption|].
      destruct l as [|z l]; simpl.
      * constructor. lia.
      * inversion Hhd; subst.
        destruct (key x <? key z); constructor; lia.
Qed.

Lemma order_by_Sorted {A : Type} (key : A -> Z) (l : list A) :
  Sorted (fun a b => key a <= key b) (order_by key l).
Proof.
  unfold order_by. induction l as [|x l IH]; simpl; [constructor|].
  now apply insert_by_Sorted.
Qed.

Lemma insert_by_Permutation {A : Type} (key : A -> Z) (x : A) (l : list A) :
  Permutation (insert_by key x l) (x :: l).
Proof.
  induction l as [|y l IH]; simpl; [reflexivity|].
  destruct (key x <? key y); [reflexivity|].
  rewrite IH. apply perm_swap.
Qed.

Lemma order_by_Permutation {A : Type} (key : A -> Z) (l : list A) :
  Permutation (order_by key l) l.
Proof.
  unfold order_by. induction l as [|x l IH]; simpl; [reflexivity|].
  rewrite insert_by_Permutation. now constructor.
Qed.



(** X2.  Every overview entry belongs to a stored sprint and carries that
    sprint's title and status, the number of its habits, the number of its
    sessions, the number of its done sessions and the sum of its planned
    minutes; its completion rate is null exactly when the sprint has no
    session and is otherwise the done count over the session count. *)
Theorem overview_entry_figures (db : Store) (item : SprintOverview) :
  In item (list_sprint_overview db) ->
  exists sp,
    In sp (sprints db)
    /\ ov_id item = sprint_pk sp
    /\ ov_title item = sprint_title sp
    /\ ov_status item = sprint_status sp
    /\ ov_habits_count item = Z.of_nat (length (habits_of (ov_id item) db))
    /\ ov_sessions_count item = Z.of_nat (length (sessions_of (ov_id item) db))
    /\ ov_done_sessions item = count_status DONE (sessions_of (ov_id item) db)
    /\ ov_total_planned_minutes item
       = Zsum (map planned_duration_min (sessions_of (ov_id item) db))
    /\ (ov_sessions_count item = 0 -> ov_completion_rate item = None)
    /\ (0 < ov_sessions_count item ->
        exists q,
          ov_completion_rate item = Some q
          /\ (q == ov_done_sessions item # Z.to_pos (ov_sessions_count item))%Q).
Proof.
  intro Hin. apply list_sprint_overview_In in Hin. destruct Hin as [sp [Hsp ->]].
  exists sp. unfold overview_of.
  cbn [ov_id ov_title ov_status ov_habits_count ov_sessions_count
       ov_done_sessions ov_total_planned_minutes ov_completion_rate].
  repeat (split; [first [assumption | reflexivity]|]).
  split.
  - intros ->. reflexivity.
  - intro Hpos.
    destruct (Z.eqb_spec (Z.of_nat (length (sessions_of (sprint_pk sp) db))) 0);
      [lia|].
    eexists. split; [reflexivity|]. now apply truediv_Qmake.
Qed.

Lemma overview_entry_figures_witness :
  exists sp,
    In sp (sprints demo_store)
    /\ ov_id (overview_of demo_store sp) = 1
    /\ ov_habits_count (overview_of demo_store sp) = 2
    /\ ov_sessions_count (overview_of demo_store sp) = 6
    /\ ov_done_sessions (overview_of demo_store sp) = 4
    /\ ov_total_planned_minutes (overview_of demo_store sp) = 315.
Proof.
  assert (Hin : In (overview_of demo_store
                      (mkSprint 1 "Deep Work Week"
                         "Solidify DS & Algorithms fundamentals" 20000 20006
                         SPRINT_ACTIVE (utcnow demo_clock) (utcnow demo_clock)))
                  (list_sprint_overview demo_store)).
  { apply list_sprint_overview_In. eexists. split; [|reflexivity].
    simpl. left. reflexivity. }
  destruct (overview_entry_figures demo_store _ Hin)
    as [sp [Hsp [Hid [_ [_ [Hh [Hn [Hd [Hp _]]]]]]]]].
  exists (mkSprint 1 "Deep Work Week" "Solidify DS & Algorithms fundamentals"
            20000 20006 SPRINT_ACTIVE (utcnow demo_clock) (utcnow demo_clock)).
  split; [simpl; left; reflexivity|].
  split; [reflexivity|].
  split; [exact Hh|]. split; [exact Hn|]. split; [exact Hd | exact Hp].
Defined.

Lemma stats_planned (sprint_id : Z) (db : Store) :
  total_planned_minutes (stats_of sprint_id db)
  = Zsum (map planned_duration_min (sessions_of sprint_id db)).
Proof.
  unfold stats_of, stats_stmt.
  cbn [total_planned_minutes res_total_planned_minutes].
  rewrite sql_sum_all_Some. fold (sessions_of sprint_id db).
  destruct (sessions_of sprint_id db); [reflexivity | apply or0_Some].
Qed.


Lemma sprint_stats_Ok_inv (sprint_id : Z) (db : Store) (r : SprintStats) :
  sprint_stats sprint_id db = Ok r -> r = stats_of sprint_id db.
Proof.
  unfold sprint_stats. destruct (negb (0 <? sprint_id)); [discriminate|].
  destruct (_get_sprint_or_404 sprint_id db); [discriminate|].
  intro H. injection H as <-. reflexivity.
Qed.



(** Every session is planned, done or skipped. *)
Lemma count_status_partition (l : list Session) :
  count_status PLANNED l + count_status DONE l + count_status SKIPPED l
  = Z.of_nat (length l).
Proof.
  unfold count_status, has_status.
  induction l as [|s l IH]; [reflexivity|].
  cbn [filter]. destruct (status s); cbn [SessionStatus_eqb length];
    rewrite !Nat2Z.inj_succ; lia.
Qed.

(** X4.  In every statistics object the route returns, the done, skipped
    and still planned sessions add up to the total, so done plus skipped
    never exceeds it; the planned minutes are the sum of the planned
    durations; and the completion rate is the integer 0 or a quotient
    between 0 and 1. *)
Theorem sprint_stats_bounds (db : Store) (sprint_id : Z) (r : SprintStats) :
  sprint_stats sprint_id db = Ok r ->
  stats_sprint_id r = sprint_id
  /\ total_sessions r
     = count_status PLANNED (sessions_of sprint_id db)
       + done_sessions r + skipped_sessions r
  /\ 0 <= done_sessions r
  /\ 0 <= skipped_sessions r
  /\ done_sessions r + skipped_sessions r <= total_sessions r
  /\ total_planned_minutes r
     = Zsum (map planned_duration_min (sessions_of sprint_id db))
  /\ (completion_rate r = PyInt 0
      \/ exists q, completion_rate r = PyFloat q /\ (0 <= q)%Q /\ (q <= 1)%Q).
Proof.
  intro E. apply sprint_stats_Ok_inv in E. subst r.
  pose proof (count_status_partition (sessions_of sprint_id db)) as P.
  pose proof (count_status_le PLANNED (sessions_of sprint_id db)) as HP.
  pose proof (count_status_le DONE (sessions_of sprint_id db)) as HD.
  pose proof (count_status_le SKIPPED (sessions_of sprint_id db)) as HS.
  rewrite stats_rate, stats_total, stats_done, stats_skipped, stats_planned.
  split; [reflexivity|].
  split; [lia|]. split; [lia|]. split; [lia|]. split; [lia|].
  split; [reflexivity|].
  destruct (Z.eqb_spec (Z.of_nat (length (sessions_of sprint_id db))) 0)
    as [E0 | N0]; [now left|].
  right. eexists. split; [reflexivity|].
  assert (Hn : 0 < Z.of_nat (length (sessions_of sprint_id db))) by lia.
  rewrite (truediv_Qmake _ _ Hn).
  unfold Qle. simpl. rewrite Z2Pos.id by lia. lia.
Qed.

Lemma sprint_stats_bounds_witness :
  exists r,
    sprint_stats 1 demo_store = Ok r
    /\ done_sessions r + skipped_sessions r <= total_sessions r
    /\ total_planned_minutes r = 315.
Proof.
  exists (stats_of 1 demo_store).
  destruct (sprint_stats_bounds demo_store 1 (stats_of 1 demo_store) eq_refl)
    as [_ [_ [_ [_ [Hle [Hp _]]]]]].
  split; [reflexivity|]. split; [exact Hle | exact Hp].
Defined.

(** * Invariants of the reachable stores *)

(** X5.  In every reachable store each primary key is positive and each
    stored sprint, habit and session is the row that [db.get] returns for
    its key: no two rows of a table share a key. *)
Theorem stored_rows_found_by_key (db : Store) :
  reachable db ->
  (forall sp, In sp (sprints db) ->
     0 < sprint_pk sp
     /\ db_get sprint_pk (sprints db) (sprint_pk sp) = Some sp)
  /\ (forall h, In h (habits db) ->
        0 < habit_pk h /\ db_get habit_pk (habits db) (habit_pk h) = Some h)
  /\ (forall s, In s (sessions db) ->
        0 < session_pk s
        /\ db_get session_pk (sessions db) (session_pk s) = Some s).
Proof.
  intro R. destruct (reachable_keys_ok _ R) as [P1 P2 P3 N1 N2 N3].
  rewrite Forall_forall in P1, P2, P3.
  split; [|split]; intros r Hr; (split; [|now apply db_get_unique]).
  - apply P1. now apply in_map.
  - apply P2. now apply in_map.
  - apply P3. now apply in_map.
Qed.

Lemma stored_rows_found_by_key_witness :
  0 < session_pk demo_session_1
  /\ db_get session_pk (sessions demo_store) (session_pk demo_session_1)
     = Some demo_session_1.
Proof.
  destruct (stored_rows_found_by_key demo_store demo_store_reachable)
    as [_ [_ H]].
  apply H. simpl. left. reflexivity.
Defined.


Lemma db_get_key_In {A : Type} (pk : A -> Z) (rows : list A) (k : Z) (r : A) :
  db_get pk rows k = Some r -> In k (map pk rows).
Proof.
  intro G. apply db_get_Some in G. destruct G as [Hin <-]. now apply in_map.
Qed.


Ltac refs_same_sprints H :=
  destruct H as [Hh Hs]; split; simpl; assumption.






Lemma opt_ge_true (lo : Z) (x : option Z) (d : Z) :
  opt_ge lo x = true -> x = Some d -> lo <= d.
Proof. intros H ->. simpl in H. lia. Qed.

Lemma opt_between_true (lo hi : Z) (x : option Z) (d : Z) :
  opt_between lo hi x = true -> x = Some d -> lo <= d <= hi.
Proof. intros H ->. simpl in H. lia. Qed.

Lemma valid_SessionCreate_fields (p : SessionCreate) :
  valid_SessionCreate p = true ->
  1 <= sn_sprint_id p
  /\ (forall h, sn_habit_id p = Some h -> 1 <= h)
  /\ 1 <= sn_planned_duration_min p
  /\ (forall d, sn_actual_duration_min p = Some d -> 1 <= d)
  /\ (forall d, sn_difficulty p = Some d -> 1 <= d <= 5)
  /\ (forall m, sn_mood p = Some m -> 1 <= m <= 5).
Proof.
  unfold valid_SessionCreate. rewrite !andb_true_iff, !Z.leb_le.
  intros [[[[[H1 H2] H3] H4] H5] H6].
  split; [assumption|].
  split; [intros d E; exact (opt_ge_true _ _ _ H2 E)|].
  split; [assumption|].
  split; [intros d E; exact (opt_ge_true _ _ _ H4 E)|].
  split; intros d E;
    [exact (opt_between_true _ _ _ _ H5 E) | exact (opt_between_true _ _ _ _ H6 E)].
Qed.

Lemma parse_SessionCompleteRequest_bounds (body : CompleteBody)
  (payload : SessionCompleteRequest) :
  parse_SessionCompleteRequest body = Some payload ->
  1 <= cr_actual_duration_min payload
  /\ (forall d, cr_difficulty payload = Some d -> 1 <= d <= 5)
  /\ (forall m, cr_mood payload = Some m -> 1 <= m <= 5).
Proof.
  unfold parse_SessionCompleteRequest.
  destruct (cb_actual_start body); [|discriminate].
  destruct (cb_actual_duration_min body); [|discriminate].
  destruct (_ && _) eqn:V; [|discriminate].
  rewrite !andb_true_iff, Z.leb_le in V. destruct V as [[V1 V2] V3].
  intro H. injection H as <-. simpl.
  split; [assumption|].
  split; intros d E; [apply (opt_between_true _ _ _ _ V2 E)
                     | apply (opt_between_true _ _ _ _ V3 E)].
Qed.

Lemma fields_ok_seed (clk : Clock) (db : Store) : fields_ok (fst (seed_demo clk db)).
Proof.
  split; simpl; intros r H.
  - repeat (destruct H as [<- | H]; [simpl; lia|]). destruct H.
  - repeat (destruct H as [<- | H];
            [unfold session_fields_ok; simpl;
             split; [lia|];
             split; [intros d E; first [discriminate E | injection E as <-; lia]|];
             split; intros d E; injection E as <-; lia |]).
    destruct H.
Qed.

Lemma session_fields_ok_complete (payload : SessionCompleteRequest) (s : Session) :
  1 <= cr_actual_duration_min payload ->
  (forall d, cr_difficulty payload = Some d -> 1 <= d <= 5) ->
  (forall m, cr_mood payload = Some m -> 1 <= m <= 5) ->
  session_fields_ok s -> session_fields_ok (apply_complete payload s).
Proof.
  intros Hd Hdi Hm [Hp _]. unfold session_fields_ok. simpl.
  repeat split; try assumption; try (apply Hdi; assumption);
    try (apply Hm; assumption).
  intros d E. injection E as <-. assumption.
Qed.

Lemma session_fields_ok_skip (payload : option SessionSkipRequest) (s : Session) :
  session_fields_ok s -> session_fields_ok (apply_skip payload s).
Proof. intro H. exact H. Qed.

Lemma session_fields_ok_complete_ui (clk : Clock) (s : Session) :
  session_fields_ok s -> session_fields_ok (apply_complete_ui clk s).
Proof.
  intros [Hp [Ha [Hd Hm]]]. unfold session_fields_ok. simpl.
  split; [assumption|]. split; [|split; assumption].
  intros d E. destruct (actual_duration_min s) as [d0|].
  - injection E as <-. now apply Ha.
  - injection E as <-. assumption.
Qed.

Lemma session_fields_ok_skip_ui (s : Session) :
  session_fields_ok s -> session_fields_ok (apply_skip_ui s).
Proof. intro H. exact H. Qed.

Ltac fields_update H lem :=
  destruct H as [Hh Hs]; split; simpl; [assumption|];
  intros s' Hin; apply In_db_update in Hin;
  destruct Hin as [Hin | [r [Hin ->]]];
  [now apply Hs | apply lem; try assumption; now apply Hs].

Lemma fields_ok_handle (clk : Clock) (req : Request) (db : Store) :
  fields_ok db -> fields_ok (handle clk req db).
Proof.
  intro H. destruct req; simpl.
  - unfold create_sprint. destruct (negb _); simpl; assumption.
  - unfold update_sprint_status, _get_sprint_or_404.
    destruct (negb _); simpl; [assumption|].
    destruct (db_get _ _ _); simpl; assumption.
  - unfold create_habit, _get_sprint_or_404.
    destruct (0 <? sprint_id); simpl; [|assumption].
    destruct (valid_HabitCreate payload) eqn:V; simpl; [|assumption].
    destruct (db_get _ _ _); simpl; [|assumption].
    destruct (negb _); simpl; [assumption|].
    destruct H as [Hh Hs]. split; simpl; [|assumption].
    intros x Hin. apply In_snoc in Hin. destruct Hin as [Hin | ->]; [auto|].
    simpl. unfold valid_HabitCreate in V.
    rewrite !andb_true_iff, !Z.leb_le in V. tauto.
  - unfold create_session, _get_sprint_or_404.
    destruct (0 <? sprint_id); simpl; [|assumption].
    destruct (valid_SessionCreate payload) eqn:V; simpl; [|assumption].
    destruct (db_get _ _ _); simpl; [|assumption].
    destruct (negb _); simpl; [assumption|].
    destruct H as [Hh Hs]. split; simpl; [assumption|].
    intros x Hin. apply In_snoc in Hin. destruct Hin as [Hin | ->]; [auto|].
    destruct (valid_SessionCreate_fields _ V) as [_ [_ [V3 [V4 [V5 V6]]]]].
    unfold session_fields_ok. simpl. tauto.
  - unfold complete_session, _get_session_or_404.
    destruct (parse_SessionCompleteRequest body) as [payload|] eqn:Pp; simpl;
      [|assumption].
    destruct (negb _); simpl; [assumption|].
    destruct (db_get _ _ _); simpl; [|assumption].
    destruct (parse_SessionCompleteRequest_bounds _ _ Pp) as [B1 [B2 B3]].
    fields_update H session_fields_ok_complete.
  - unfold skip_session, _get_session_or_404.
    destruct (negb _); simpl; [assumption|].
    destruct (db_get _ _ _); simpl; [|assumption].
    fields_update H session_fields_ok_skip.
  - apply fields_ok_seed.
  - assumption.
  - unfold create_habit_ui.
    destruct (db_get _ _ _); simpl; [|assumption].
    destruct (negb _); simpl; [assumption|].
    destruct (Z.leb_spec target_sessions_per_day 0); simpl; [assumption|].
    destruct H as [Hh Hs]. split; simpl; [|assumption].
    intros x Hin. apply In_snoc in Hin. destruct Hin as [Hin | ->]; [auto|].
    simpl. lia.
  - unfold delete_habit_ui.
    destruct (db_get _ _ _); simpl; [|assumption].
    destruct H as [Hh Hs].
    split; simpl; intros r Hr; apply filter_In in Hr; destruct Hr; auto.
  - unfold plan_session_ui.
    destruct (db_get _ _ _); simpl; [|assumption].
    destruct (Z.leb_spec planned_duration 0); simpl; [assumption|].
    destruct (resolve_habit _ _ _); simpl; [|assumption].
    destruct H as [Hh Hs]. split; simpl; [assumption|].
    intros x Hin. apply In_snoc in Hin. destruct Hin as [Hin | ->]; [auto|].
    unfold session_fields_ok. simpl.
    split; [lia|]. repeat split; discriminate.
  - unfold complete_session_ui.
    destruct (db_get _ _ _); simpl; [|assumption].
    fields_update H session_fields_ok_complete_ui.
  - unfold skip_session_ui.
    destruct (db_get _ _ _); simpl; [|assumption].
    fields_update H session_fields_ok_skip_ui.
  - assumption.
Qed.

Lemma reachable_fields_ok (db : Store) : reachable db -> fields_ok db.
Proof.
  induction 1 as [|clk req db _ IH].
  - split; intros r [].
  - now apply fields_ok_handle.
Qed.

(** X7.  In every reachable store the numeric fields are within the bounds
    the schemas declare, whichever route wrote them: a habit targets at
    least one session a day; a session is planned for at least one minute,
    its actual duration, when recorded, is at least one minute, and its
    difficulty and mood, when recorded, lie between 1 and 5. *)
Theorem stored_fields_within_bounds (db : Store) :
  reachable db ->
  (forall h, In h (habits db) -> 1 <= habit_target_sessions_per_day h)
  /\ (forall s, In s (sessions db) ->
        1 <= planned_duration_min s
        /\ (forall d, actual_duration_min s = Some d -> 1 <= d)
        /\ (forall d, difficulty s = Some d -> 1 <= d <= 5)
        /\ (forall m, mood s = Some m -> 1 <= m <= 5)).
Proof. intro R. exact (reachable_fields_ok _ R). Qed.

Lemma stored_fields_within_bounds_witness :
  1 <= planned_duration_min demo_session_1
  /\ (forall d, difficulty demo_session_1 = Some d -> 1 <= d <= 5).
Proof.
  destruct (stored_fields_within_bounds demo_store demo_store_reachable)
    as [_ H].
  destruct (H demo_session_1) as [Hp [_ [Hd _]]]; [simpl; left; reflexivity|].
  split; [exact Hp | exact Hd].
Defined.

(** * The form routes for habits and planning *)




(** X9.  Whatever the form sends, planning a session either leaves the
    store as it was or appends exactly one session: a planned one of the
    sprint in the path, with the submitted positive duration, no actual
    start or duration, no difficulty and no mood; and a habit attached to it
    is a stored habit of that same sprint. *)
Theorem plan_session_ui_stores_consistent (clk : Clock) (sprint_id : Z)
  (habit_id : HabitIdField) (planned_start_date : Z)
  (planned_start_time : option Z) (planned_duration : Z)
  (notes_field : option string) (db : Store) :
  fst (plan_session_ui clk sprint_id habit_id planned_start_date
         planned_start_time planned_duration notes_field db) = db
  \/ exists s,
       fst (plan_session_ui clk sprint_id habit_id planned_start_date
              planned_start_time planned_duration notes_field db)
       = mkStore (sprints db) (habits db) (sessions db ++ [s])
       /\ (exists sp, db_get sprint_pk (sprints db) sprint_id = Some sp)
       /\ session_sprint_id s = sprint_id
       /\ status s = PLANNED
       /\ planned_duration_min s = planned_duration
       /\ 0 < planned_duration
       /\ actual_start s = None /\ actual_duration_min s = None
       /\ difficulty s = None /\ mood s = None
       /\ db_get session_pk (sessions db) (session_pk s) = None
       /\ (forall hid,
             session_habit_id s = Some hid ->
             exists h,
               db_get habit_pk (habits db) hid = Some h
               /\ habit_sprint_id h = sprint_id).
Proof.
  unfold plan_session_ui.
  destruct (db_get sprint_pk (sprints db) sprint_id) as [sp|] eqn:G;
    [|now left].
  destruct (Z.leb_spec planned_duration 0) as [Hle | Hgt]; [now left|].
  destruct (resolve_habit sprint_id habit_id db) as [habit_obj|] eqn:Rh;
    [|now left].
  right. eexists. split; [reflexivity|].
  split; [now exists sp|].
  cbn [session_sprint_id status planned_duration_min actual_start
       actual_duration_min difficulty mood session_habit_id session_pk].
  repeat (split; [first [reflexivity | assumption]|]).
  split.
  - destruct (db_get session_pk (sessions db)
                (next_id (map session_pk (sessions db)))) eqn:Gs;
      [|reflexivity].
    exfalso. apply (next_id_fresh (map session_pk (sessions db))).
    exact (db_get_key_In _ _ _ _ Gs).
  - intros hid Hh. unfold resolve_habit in Rh.
    destruct habit_id as [| |n]; try (injection Rh as <-; discriminate Hh).
    destruct (n =? 0); [injection Rh as <-; discriminate Hh|].
    destruct (db_get habit_pk (habits db) n) as [h|] eqn:Gh; [|discriminate].
    destruct (Z.eqb_spec (habit_sprint_id h) sprint_id) as [E | N];
      [|discriminate].
    injection Rh as <-. simpl in Hh. injection Hh as <-.
    exists h. destruct (db_get_Some _ _ _ _ Gh) as [_ Ek].
    rewrite Ek. now split.
Qed.



(** * Creating and updating through the API *)

Lemma db_get_update_other {A : Type} (pk : A -> Z) (f : A -> A) (rows : list A)
  (k k' : Z) :
  (forall x, pk (f x) = pk x) -> k <> k' ->
  db_get pk (db_update pk f rows k') k = db_get pk rows k.
Proof.
  intros Hf Hne. unfold db_get, db_update.
  induction rows as [|x rows IH]; simpl; [reflexivity|].
  destruct (Z.eqb_spec (pk x) k') as [E | N].
  - rewrite Hf. destruct (Z.eqb_spec (pk x) k); [congruence | assumption].
  - destruct (pk x =? k); [reflexivity | assumption].
Qed.














(** * Completing and skipping: frame, errors, repetition *)


(** What the four rewriting routes have in common: the store after the
    request is the store before, or the store before with one function
    applied to the sessions with the target key, and that function keeps the
    identifying and the planning fields. *)
Lemma session_rewrite_shape (clk : Clock) (req : Request) (db : Store) (k : Z) :
  session_target req = Some k ->
  handle clk req db = db
  \/ exists f,
       handle clk req db
       = mkStore (sprints db) (habits db)
           (db_update session_pk f (sessions db) k)
       /\ forall s,
            session_pk (f s) = session_pk s
            /\ session_sprint_id (f s) = session_sprint_id s
            /\ session_habit_id (f s) = session_habit_id s
            /\ planned_start (f s) = planned_start s
            /\ planned_duration_min (f s) = planned_duration_min s
            /\ session_created_at (f s) = session_created_at s
            /\ status (f s) <> PLANNED.
Proof.
  destruct req; simpl; try discriminate; intro E; injection E as <-.
  - unfold complete_session, _get_session_or_404.
    destruct (parse_SessionCompleteRequest body) as [payload|]; [|now left].
    destruct (negb _); [now left|].
    destruct (db_get _ _ _); [|now left].
    right. exists (apply_complete payload). split; [reflexivity|].
    intro x. repeat split; discriminate.
  - unfold skip_session, _get_session_or_404.
    destruct (negb _); [now left|].
    destruct (db_get _ _ _); [|now left].
    right. exists (apply_skip payload). split; [reflexivity|].
    intro x. repeat split; discriminate.
  - unfold complete_session_ui.
    destruct (db_get _ _ _); [|now left].
    right. exists (apply_complete_ui clk). split; [reflexivity|].
    intro x. repeat split; discriminate.
  - unfold skip_session_ui.
    destruct (db_get _ _ _); [|now left].
    right. exists apply_skip_ui. split; [reflexivity|].
    intro x. repeat split; discriminate.
Qed.

(** X14.  A request that completes or skips a session, through the API or
    through the form, touches nothing but that session: sprints and habits
    are the same, the sessions keep their number and their keys, every
    session with another key is fetched unchanged, and the session itself
    keeps its key, sprint, habit, planned start, planned duration and
    creation time. *)
Theorem session_rewrite_frame (clk : Clock) (req : Request) (db : Store) (k : Z) :
  session_target req = Some k ->
  sprints (handle clk req db) = sprints db
  /\ habits (handle clk req db) = habits db
  /\ map session_pk (sessions (handle clk req db)) = map session_pk (sessions db)
  /\ (forall k', k' <> k ->
        db_get session_pk (sessions (handle clk req db)) k'
        = db_get session_pk (sessions db) k')
  /\ (forall s s',
        db_get session_pk (sessions db) k = Some s ->
        db_get session_pk (sessions (handle clk req db)) k = Some s' ->
        session_pk s' = session_pk s
        /\ session_sprint_id s' = session_sprint_id s
        /\ session_habit_id s' = session_habit_id s
        /\ planned_start s' = planned_start s
        /\ planned_duration_min s' = planned_duration_min s
        /\ session_created_at s' = session_created_at s).
Proof.
  intro T. destruct (session_rewrite_shape clk req db k T) as [-> | [f [-> Hf]]].
  - split; [reflexivity|]. split; [reflexivity|]. split; [reflexivity|].
    split; [reflexivity|].
    intros s s' G G'. rewrite G in G'. injection G' as <-. repeat split.
  - cbn [sprints habits sessions].
    split; [reflexivity|]. split; [reflexivity|].
    split; [apply map_pk_update; intro s; apply Hf|].
    split.
    + intros k' Hk. apply db_get_update_other; [intro s; apply Hf | assumption].
    + intros s s' G G'.
      rewrite (db_get_update session_pk f (sessions db) k s) in G';
        [|intro x; apply Hf | assumption].
      injection G' as <-. destruct (Hf s) as [H1 [H2 [H3 [H4 [H5 [H6 _]]]]]].
      repeat split; assumption.
Qed.

Lemma session_rewrite_frame_witness :
  db_get session_pk
    (sessions (handle later_clock (POST_ui_sessions_skip 2) demo_store)) 1
  = Some demo_session_1
  /\ habits (handle later_clock (POST_ui_sessions_skip 2) demo_store)
     = habits demo_store.
Proof.
  destruct (session_rewrite_frame later_clock (POST_ui_sessions_skip 2)
              demo_store 2 eq_refl) as [_ [Hh [_ [Ho _]]]].
  split; [|exact Hh].
  rewrite Ho; [reflexivity | lia].
Defined.



Lemma db_update_idem {A : Type} (pk : A -> Z) (f g : A -> A) (rows : list A)
  (k : Z) :
  (forall x, pk (f x) = pk x) ->
  (forall x, g (f x) = f x) ->
  db_update pk g (db_update pk f rows k) k = db_update pk f rows k.
Proof.
  intros Hpk Hgf. unfold db_update. rewrite map_map. apply map_ext_in.
  intros x _. destruct (pk x =? k) eqn:E.
  - now rewrite Hpk, E, Hgf.
  - now rewrite E.
Qed.

Lemma db_get_update_is_Some {A : Type} (pk : A -> Z) (f : A -> A)
  (rows : list A) (k : Z) (r : A) :
  (forall x, pk (f x) = pk x) ->
  db_get pk rows k = Some r ->
  exists r', db_get pk (db_update pk f rows k) k = Some r'.
Proof. intros Hf G. exists (f r). now apply db_get_update. Qed.

(** X16.  Repeating a completion or a skip changes nothing more: the same
    API completion body sent twice, the same API skip sent twice, and the
    form completion submitted twice (the second time at any later moment)
    each leave the store as the first request left it; in particular the
    second form submission does not move the recorded start time. *)
Theorem completion_is_idempotent (session_id : Z) (db : Store) :
  (forall body,
     fst (complete_session session_id body
            (fst (complete_session session_id body db)))
     = fst (complete_session session_id body db))
  /\ (forall payload,
        fst (skip_session session_id payload
               (fst (skip_session session_id payload db)))
        = fst (skip_session session_id payload db))
  /\ (forall clk clk',
        fst (complete_session_ui clk' session_id
               (fst (complete_session_ui clk session_id db)))
        = fst (complete_session_ui clk session_id db)).
Proof.
  split; [|split].
  - intro body. unfold complete_session, _get_session_or_404.
    destruct (parse_SessionCompleteRequest body) as [payload|] eqn:Pp;
      cbn [fst]; [|reflexivity].
    destruct (negb (0 <? session_id)) eqn:Hn; cbn [fst];
      [reflexivity|].
    destruct (db_get session_pk (sessions db) session_id) as [s|] eqn:G;
      cbn [fst]; rewrite ?Pp, ?Hn, ?G; [|reflexivity].
    cbn [sessions sprints habits].
    rewrite (db_get_update session_pk (apply_complete payload) _ _ s)
      by (reflexivity || assumption).
    cbn [fst]. f_equal. apply db_update_idem; reflexivity.
  - intro payload. unfold skip_session, _get_session_or_404.
    destruct (negb (0 <? session_id)) eqn:Hn; cbn [fst]; [reflexivity|].
    destruct (db_get session_pk (sessions db) session_id) as [s|] eqn:G;
      cbn [fst]; rewrite ?Hn, ?G; [|reflexivity].
    cbn [sessions sprints habits].
    rewrite (db_get_update session_pk (apply_skip payload) _ _ s)
      by (reflexivity || assumption).
    cbn [fst]. f_equal. apply db_update_idem; [reflexivity|].
    intro x. unfold apply_skip. cbn [notes status session_pk session_sprint_id
      session_habit_id planned_start planned_duration_min actual_start
      actual_duration_min difficulty mood session_created_at].
    destruct payload as [[[n|]]|]; reflexivity.
  - intros clk clk'. unfold complete_session_ui.
    destruct (db_get session_pk (sessions db) session_id) as [s|] eqn:G;
      cbn [fst]; rewrite ?G; [|reflexivity].
    cbn [sessions sprints habits].
    rewrite (db_get_update session_pk (apply_complete_ui clk) _ _ s)
      by (reflexivity || assumption).
    cbn [fst]. f_equal. apply db_update_idem; [reflexivity|].
    intro x. unfold apply_complete_ui. cbn.
    destruct (actual_start x), (actual_duration_min x); reflexivity.
Qed.

(** * Completion and the statistics *)








(** * Trimming in the habit form *)








Lemma str_truthy_false (s : string) : str_truthy s = false -> s = "".
Proof. destruct s; [reflexivity | discriminate]. Qed.



(** * The session list of the sprint page *)

(** X19.  The filter of the sprint page is always read as one of "all",
    "planned", "done" and "skipped"; reading the result again gives the
    result; an absent or empty filter reads as "all"; and an ASCII filter
    that names a status in any mix of upper and lower case reads as that
    status. *)
Theorem normalize_filter_classifies (value : option string) :
  (_normalize_filter value = "all"
   \/ _normalize_filter value = "planned"
   \/ _normalize_filter value = "done"
   \/ _normalize_filter value = "skipped")
  /\ _normalize_filter (Some (_normalize_filter value)) = _normalize_filter value
  /\ (value = None \/ value = Some "" -> _normalize_filter value = "all")
  /\ (forall v st,
        value = Some v -> is_ascii_text v = true ->
        _SESSION_FILTERS (lower v) = Some st ->
        _SESSION_FILTERS (_normalize_filter value) = Some st).
Proof.
  assert (Hcases : _normalize_filter value = "all"
                   \/ _normalize_filter value = "planned"
                   \/ _normalize_filter value = "done"
                   \/ _normalize_filter value = "skipped").
  { unfold _normalize_filter. destruct value as [v|]; [|now left].
    destruct (negb (str_truthy v)); [now left|]. cbv zeta.
    destruct (String.eqb_spec (lower v) "all") as [E | _];
      [rewrite E; now left|].
    destruct (String.eqb_spec (lower v) "planned") as [E | _];
      [rewrite E; right; now left|].
    destruct (String.eqb_spec (lower v) "done") as [E | _];
      [rewrite E; right; right; now left|].
    destruct (String.eqb_spec (lower v) "skipped") as [E | _];
      [rewrite E; right; right; now right|].
    now left. }
  split; [exact Hcases|]. split; [|split].
  - destruct Hcases as [-> | [-> | [-> | ->]]]; reflexivity.
  - intros [-> | ->]; reflexivity.
  - intros v st -> _ Hst. unfold _normalize_filter.
    destruct (str_truthy v) eqn:Et.
    + cbn [negb]. cbv zeta. unfold _SESSION_FILTERS in Hst.
      destruct (String.eqb_spec (lower v) "planned") as [E | _].
      * rewrite E. rewrite orb_true_r. cbn [orb]. exact (eq_trans eq_refl Hst).
      * destruct (String.eqb_spec (lower v) "done") as [E | _].
        -- rewrite E. cbn. exact Hst.
        -- destruct (String.eqb_spec (lower v) "skipped") as [E | _];
             [|discriminate].
           rewrite E. cbn. exact Hst.
    + apply str_truthy_false in Et. subst v. discriminate Hst.
Qed.

Lemma normalize_filter_classifies_witness :
  _SESSION_FILTERS (_normalize_filter (Some "DoNe")) = Some DONE
  /\ _normalize_filter (Some "later") = "all".
Proof.
  destruct (normalize_filter_classifies (Some "DoNe")) as [_ [_ [_ H]]].
  split; [|reflexivity].
  apply (H "DoNe" DONE eq_refl eq_refl eq_refl).
Defined.

(** X20.  The session list of the sprint page.  For an unknown sprint there
    is none (the 404 page).  For a stored sprint the list is in ascending
    order of planned start and holds exactly the stored sessions of that
    sprint, all of them when the filter reads as "all" and those in the
    named status otherwise. *)
Theorem sprint_detail_sessions_listing (sprint_id : Z)
  (filter_param : option string) (db : Store) :
  (db_get sprint_pk (sprints db) sprint_id = None ->
   sprint_detail_sessions sprint_id filter_param db = None)
  /\ (forall sp,
        db_get sprint_pk (sprints db) sprint_id = Some sp ->
        exists rows,
          sprint_detail_sessions sprint_id filter_param db = Some rows
          /\ Sorted (fun a b => planned_start a <= planned_start b) rows
          /\ (forall s,
                In s rows
                <-> In s (sessions db)
                    /\ session_sprint_id s = sprint_id
                    /\ match _SESSION_FILTERS (_normalize_filter filter_param) with
                       | Some st => status s = st
                       | None => True
                       end)
          /\ (_normalize_filter filter_param = "all" ->
              Permutation rows (sessions_of sprint_id db))).
Proof.
  unfold sprint_detail_sessions. split; [intros ->; reflexivity|].
  intros sp ->. eexists. split; [reflexivity|].
  split; [apply order_by_Sorted|]. split.
  - intro s. rewrite order_by_In.
    destruct (_SESSION_FILTERS (_normalize_filter filter_param)) as [st|].
    + rewrite !filter_In, Z.eqb_eq, SessionStatus_eqb_eq. tauto.
    + rewrite filter_In, Z.eqb_eq. tauto.
  - intros ->. cbn. apply order_by_Permutation.
Qed.

Lemma sprint_detail_sessions_listing_witness :
  exists rows,
    sprint_detail_sessions 1 (Some "Skipped") demo_store = Some rows
    /\ map session_pk rows = [1; 4].
Proof.
  destruct (sprint_detail_sessions_listing 1 (Some "Skipped") demo_store)
    as [_ H].
  destruct (H (mkSprint 1 "Deep Work Week" "Solidify DS & Algorithms fundamentals"
                 20000 20006 SPRINT_ACTIVE (utcnow demo_clock) (utcnow demo_clock))
              eq_refl) as [rows [E _]].
  exists rows. split; [exact E|].
  assert (Er : Some rows
               = sprint_detail_sessions 1 (Some "Skipped") demo_store)
    by (symmetry; exact E).
  vm_compute in Er. injection Er as ->. reflexivity.
Defined.

(** * Errors and validation *)



(** X22.  A body outside the bounds of its schema, or a path id that is not
    positive, gets the 422 answer and no write: for a new session a planned
    or actual duration below 1, a sprint or habit id below 1, or a
    difficulty or mood outside 1..5; for a new habit a target or a sprint id
    below 1; for a completion a missing start or duration, a duration
    below 1, or a difficulty or mood outside 1..5. *)
Theorem out_of_bounds_rejected (clk : Clock) (db : Store) :
  (forall sprint_id p,
     sprint_id <= 0
     \/ sn_sprint_id p < 1
     \/ (exists h, sn_habit_id p = Some h /\ h < 1)
     \/ sn_planned_duration_min p < 1
     \/ (exists d, sn_actual_duration_min p = Some d /\ d < 1)
     \/ (exists d, sn_difficulty p = Some d /\ (d < 1 \/ 5 < d))
     \/ (exists m, sn_mood p = Some m /\ (m < 1 \/ 5 < m)) ->
     create_session clk sprint_id p db = (db, Unprocessable))
  /\ (forall sprint_id p,
        sprint_id <= 0
        \/ hc_sprint_id p < 1
        \/ hc_target_sessions_per_day p < 1 ->
        create_habit clk sprint_id p db = (db, Unprocessable))
  /\ (forall session_id body,
        session_id <= 0
        \/ cb_actual_start body = None
        \/ cb_actual_duration_min body = None
        \/ (exists d, cb_actual_duration_min body = Some d /\ d < 1)
        \/ (exists d, cb_difficulty body = Some d /\ (d < 1 \/ 5 < d))
        \/ (exists m, cb_mood body = Some m /\ (m < 1 \/ 5 < m)) ->
        complete_session session_id body db = (db, Unprocessable)).
Proof.
  split; [|split].
  - intros sprint_id p H. unfold create_session.
    destruct (0 <? sprint_id) eqn:Hp; [|reflexivity].
    apply Z.ltb_lt in Hp.
    destruct (valid_SessionCreate p) eqn:V; [|reflexivity].
    exfalso. destruct (valid_SessionCreate_fields _ V)
      as [V1 [V2 [V3 [V4 [V5 V6]]]]].
    destruct H as [H | [H | [[h [E H]] | [H | [[d [E H]] | [[d [E H]] | [m [E H]]]]]]]];
      try lia.
    + specialize (V2 _ E). lia.
    + specialize (V4 _ E). lia.
    + specialize (V5 _ E). lia.
    + specialize (V6 _ E). lia.
  - intros sprint_id p H. unfold create_habit.
    destruct (0 <? sprint_id) eqn:Hp; [|reflexivity].
    apply Z.ltb_lt in Hp.
    destruct (valid_HabitCreate p) eqn:V; [|reflexivity].
    exfalso. unfold valid_HabitCreate in V.
    rewrite !andb_true_iff, !Z.leb_le in V. lia.
  - intros session_id body H. unfold complete_session.
    destruct (parse_SessionCompleteRequest body) as [payload|] eqn:Pp;
      [|reflexivity].
    destruct (0 <? session_id) eqn:Hp; [|reflexivity].
    apply Z.ltb_lt in Hp. exfalso.
    destruct (parse_SessionCompleteRequest_fields _ _ Pp)
      as [F1 [F2 [_ [F4 F5]]]].
    destruct (parse_SessionCompleteRequest_bounds _ _ Pp) as [B1 [B2 B3]].
    destruct H as [H | [H | [H | [[d [E H]] | [[d [E H]] | [m [E H]]]]]]];
      try lia; try congruence.
    + rewrite F2 in E. injection E as <-. lia.
    + rewrite <- F4 in E. specialize (B2 _ E). lia.
    + rewrite <- F5 in E. specialize (B3 _ E). lia.
Qed.

Lemma out_of_bounds_rejected_witness :
  complete_session 1
    (mkCompleteBody (Some (utcnow later_clock)) (Some 30) None (Some 6) None)
    demo_store
  = (demo_store, Unprocessable).
Proof.
  destruct (out_of_bounds_rejected later_clock demo_store) as [_ [_ H]].
  apply H. right. right. right. right. left.
  exists 6. split; [reflexivity | lia].
Defined.

(** * Habits through the API *)



